(** * Iowa liquor sales analysis: the lazy cleaning, classification and
      aggregation pipeline of [iowa-sales-analyses.py]

    The notebook builds Polars lazy queries cell by cell.  Each cell is
    embedded as a function of the names the cell receives (the arguments of
    its [def _(...)]).  A data frame is a list of named, typed columns; a
    lazy frame is a source frame together with the deferred plan that
    [collect] runs; an expression is a function from the frame it is
    evaluated in to a column.  Float64 cells are binary64 floats, the
    kernel's primitive ones.  What the engine leaves to its parsers and
    printers (text to number, text to date, number to text, the byte size of
    a frame) is the interface [Engine]; [reference_engine] is one instance,
    used to run the pipeline on concrete tables.  What it leaves open in a
    grouped and sorted query (the order of the groups, the order of equal
    rows, the order of a float sum) is the interface [Executor]. *)

From Stdlib Require Import ZArith String Ascii Floats Lia Sorted.
From stdpp Require Import base list strings gmap pretty.

Set Warnings "-inexact-float".
Open Scope Z_scope.

(** ** Cells, columns and frames *)

Inductive DataType :=
  Int8 | Int16 | Int32 | Int64 | UInt32 | Float64 | Utf8 | Date | Boolean.

Inductive value :=
| Null
| VInt (z : Z)
| VFloat (x : float)
| VStr (s : string)
| VDate (days : Z)
| VBool (b : bool).

Record Series := mkSeries { name : string; dtype : DataType; values : list value }.

Abbreviation DataFrame := (list Series).

(** What a cell of the notebook can raise: three of Polars' exceptions,
    each with the column it names, and Python's IndexError. *)
Inductive PyError :=
| ColumnNotFoundError (c : string)
| InvalidOperationError (c : string)
| SchemaError (c : string)
| IndexError.

Inductive Result (A : Type) :=
| Ok (a : A)
| Err (e : PyError).
Arguments Ok {A} a.
Arguments Err {A} e.

#[global] Instance result_ret : MRet Result := fun A a => Ok a.
#[global] Instance result_bind : MBind Result :=
  fun A B f m => match m with Ok a => f a | Err e => Err e end.
#[global] Instance result_fmap : FMap Result :=
  fun A B f m => match m with Ok a => Ok (f a) | Err e => Err e end.

(** [for x in xs] with a fallible body: the first error stops the loop. *)
Fixpoint mapR {A B} (f : A -> Result B) (l : list A) : Result (list B) :=
  match l with
  | [] => Ok []
  | a :: l' => b ← f a; bs ← mapR f l'; Ok (b :: bs)
  end.

Definition is_null (v : value) : bool :=
  match v with Null => true | _ => false end.

Definition has_name (c : string) (s : Series) : bool := String.eqb (name s) c.

(** [c in schema]: membership of a name in a list of names. *)
Definition mem (c : string) (l : list string) : bool := existsb (String.eqb c) l.

Definition column (c : string) (df : DataFrame) : option Series :=
  List.find (has_name c) df.

Definition columns (df : DataFrame) : list string := map name df.

Definition height (df : DataFrame) : nat :=
  match df with
  | [] => 0%nat
  | s :: _ => length (values s)
  end.

(** The same columns with no row: what the planner resolves a schema on. *)
Definition clear_rows (df : DataFrame) : DataFrame :=
  map (fun s => mkSeries (name s) (dtype s) []) df.

(** The cell of column [c] in row [i]. *)
Definition cell (df : DataFrame) (c : string) (i : nat) : option value :=
  s ← column c df; values s !! i.

(** [DataFrame.with_columns] for one computed column: a column of that name
    is replaced where it stands, a new name is appended. *)
Definition with_column (s : Series) (df : DataFrame) : DataFrame :=
  if existsb (has_name (name s)) df
  then map (fun t => if has_name (name s) t then s else t) df
  else df ++ [s].

(** [DataFrame.drop(names)], strict as Polars has it by default: a name that
    is no column is an error. *)
Definition drop_frame (names : list string) (df : DataFrame) : Result DataFrame :=
  match List.find (fun c => negb (mem c (columns df))) names with
  | Some c => Err (ColumnNotFoundError c)
  | None => Ok (List.filter (fun s => negb (mem (name s) names)) df)
  end.

(** The first [n] items of a list, [n] a Python integer; the notebook
    passes positive counts. *)
Fixpoint first_n {A} (n : Z) (l : list A) : list A :=
  match l with
  | [] => []
  | x :: l' => if n <=? 0 then [] else x :: first_n (n - 1) l'
  end.

(** [DataFrame.head(n)] *)
Definition head_frame (n : Z) (df : DataFrame) : DataFrame :=
  map (fun s => mkSeries (name s) (dtype s) (first_n n (values s))) df.

(** ** Lazy frames and expressions *)

(** A lazy frame: the scanned source and the plan built so far.  Building a
    plan runs nothing. *)
Record LazyFrame := mkLazy { source : DataFrame; plan : DataFrame -> Result DataFrame }.

Abbreviation Expr := (DataFrame -> Result Series).

(** [pl.scan_parquet(data_file)]: the identity query over the file. *)
Definition scan_parquet (file : DataFrame) : LazyFrame := mkLazy file Ok.

Definition then_do (f : DataFrame -> Result DataFrame) (lf : LazyFrame) : LazyFrame :=
  mkLazy (source lf) (fun df => plan lf df ≫= f).

(** [lf.collect_schema()]: the plan resolved on the schema alone. *)
Definition collect_schema (lf : LazyFrame) : Result (list string) :=
  columns <$> plan lf (clear_rows (source lf)).

(** [lf.collect()]: the plan is resolved against the schema first, so an
    absent column is reported before any row is read; then it runs, every
    step of it.  (Polars leaves out the steps whose columns the result does
    not use; where the whole query collects, that changes nothing.) *)
Definition collect (lf : LazyFrame) : Result DataFrame :=
  _ ← plan lf (clear_rows (source lf)); plan lf (source lf).

Definition lazy_drop (names : list string) : LazyFrame -> LazyFrame :=
  then_do (drop_frame names).

Definition lazy_head (n : Z) : LazyFrame -> LazyFrame :=
  then_do (fun df => Ok (head_frame n df)).

(** [lf.with_columns(exprs)]: every expression is evaluated in the incoming
    frame, then the columns are put in place from left to right. *)
Definition with_columns_frame (exprs : list Expr) (df : DataFrame) : Result DataFrame :=
  news ← mapR (fun e => e df) exprs;
  Ok (foldl (fun acc s => with_column s acc) df news).

Definition with_columns (exprs : list Expr) : LazyFrame -> LazyFrame :=
  then_do (with_columns_frame exprs).

(** [pl.col(c)] *)
Definition col (c : string) : Expr :=
  fun df => match column c df with
            | Some s => Ok s
            | None => Err (ColumnNotFoundError c)
            end.

(** [e.alias(n)] *)
Definition alias (n : string) (e : Expr) : Expr :=
  fun df => s ← e df; Ok (mkSeries n (dtype s) (values s)).

Notation "x |> f" := (f x) (at level 68, left associativity, only parsing).

(** ** Numbers *)

(** An integer as a binary64 float, rounded to nearest even. *)
Definition f64_of_Z (z : Z) : float := SF2Prim (binary_normalize prec emax z 0 false).

(** A float as an integer, truncated towards zero; none for NaN and the
    infinities. *)
Definition f64_trunc (x : float) : option Z :=
  match Prim2SF x with
  | S754_zero _ => Some 0
  | S754_finite s m e =>
      let a := if 0 <=? e then Z.pos m * 2 ^ e else Z.pos m / 2 ^ (- e) in
      Some (if s then - a else a)
  | _ => None
  end.

(** The bounds of the fixed-width integer types. *)
Definition int_bounds (dt : DataType) : option (Z * Z) :=
  match dt with
  | Int8 => Some (-128, 127)
  | Int16 => Some (-32768, 32767)
  | Int32 => Some (-2147483648, 2147483647)
  | Int64 => Some (-9223372036854775808, 9223372036854775807)
  | UInt32 => Some (0, 4294967295)
  | _ => None
  end.

(** ** The calendar: a [Date] cell is a count of days since 1970-01-01 *)

Module Calendar.

Definition civil_from_days (days : Z) : Z * Z * Z :=
  let z := days + 719468 in
  let era := z / 146097 in
  let doe := z - era * 146097 in
  let yoe := (doe - doe / 1460 + doe / 36524 - doe / 146096) / 365 in
  let doy := doe - (365 * yoe + yoe / 4 - yoe / 100) in
  let mp := (5 * doy + 2) / 153 in
  let d := doy - (153 * mp + 2) / 5 + 1 in
  let m := if mp <? 10 then mp + 3 else mp - 9 in
  let y := yoe + era * 400 in
  (if m <=? 2 then y + 1 else y, m, d).

Definition days_from_civil (y m d : Z) : Z :=
  let y' := if m <=? 2 then y - 1 else y in
  let era := y' / 400 in
  let yoe := y' - era * 400 in
  let doy := (153 * (if 2 <? m then m - 3 else m + 9) + 2) / 5 + d - 1 in
  let doe := yoe * 365 + yoe / 4 - yoe / 100 + doy in
  era * 146097 + doe - 719468.

Definition year (days : Z) : Z := (civil_from_days days).1.1.
Definition month (days : Z) : Z := (civil_from_days days).1.2.
Definition quarter (days : Z) : Z := (month days - 1) / 3 + 1.

(** The ISO weekday, as Polars' [dt.weekday()]: Monday is 1, Sunday is 7.
    Day 0 (1970-01-01) was a Thursday. *)
Definition weekday (days : Z) : Z := (days + 3) mod 7 + 1.

End Calendar.

(** ** The engine's parsers and printers *)

Class Engine := {
  (** text to integer, as a strict cast of a string column does it *)
  str_to_int : string -> option Z;
  (** text to float *)
  str_to_f64 : string -> option float;
  (** float to text *)
  f64_to_str : float -> string;
  (** [strptime_date fmt s]: [s] read under the format [fmt], in days *)
  strptime_date : string -> string -> option Z;
  (** [DataFrame.estimated_size()] in bytes *)
  estimated_size : DataFrame -> Z;
}.

Section Casting.
Context `{Engine}.

Definition to_int (v : value) : option Z :=
  match v with
  | Null => None
  | VInt z => Some z
  | VFloat x => f64_trunc x
  | VStr s => str_to_int s
  | VDate d => Some d
  | VBool b => Some (if b then 1 else 0)
  end.

Definition to_f64 (v : value) : option float :=
  match v with
  | Null => None
  | VInt z => Some (f64_of_Z z)
  | VFloat x => Some x
  | VStr s => str_to_f64 s
  | VDate d => Some (f64_of_Z d)
  | VBool b => Some (if b then 1%float else 0%float)
  end.

Definition iso_date (days : Z) : string :=
  let '(y, m, d) := Calendar.civil_from_days days in
  let two (n : Z) : string := if n <? 10 then "0" +:+ pretty n else pretty n in
  pretty y +:+ "-" +:+ two m +:+ "-" +:+ two d.

Definition to_str (v : value) : string :=
  match v with
  | Null => ""
  | VInt z => pretty z
  | VFloat x => f64_to_str x
  | VStr s => s
  | VDate d => iso_date d
  | VBool b => if b then "true" else "false"
  end.

(** One cell cast to [dt]; [None] is a conversion failure.  A null stays
    null.  The notebook casts to Int16, Float64 and Utf8; the integer
    types share one rule, and the other targets are left out. *)
Definition cast_value (dt : DataType) (v : value) : option value :=
  match v with
  | Null => Some Null
  | _ =>
      match dt with
      | Float64 => VFloat <$> to_f64 v
      | Utf8 => Some (VStr (to_str v))
      | Date | Boolean => None
      | _ =>
          z ← to_int v;
          '(lo, hi) ← int_bounds dt;
          if (lo <=? z) && (z <=? hi) then Some (VInt z) else None
      end
  end.

(** What a cell that does not convert becomes: an error when the
    conversion is strict, a null when it is not. *)
Definition on_failure (strict : bool) (c : string) (r : option value) : Result value :=
  match r with
  | Some v => Ok v
  | None => if strict then Err (InvalidOperationError c) else Ok Null
  end.

Definition cast_series (dt : DataType) (strict : bool) (s : Series) : Result Series :=
  vs ← mapR (fun v => on_failure strict (name s) (cast_value dt v)) (values s);
  Ok (mkSeries (name s) dt vs).

(** [e.cast(dtype, strict=...)] *)
Definition cast_with (strict : bool) (dt : DataType) (e : Expr) : Expr :=
  fun df => e df ≫= cast_series dt strict.

(** [e.cast(dtype)]: Polars' default is [strict=True]. *)
Definition cast (dt : DataType) (e : Expr) : Expr := cast_with true dt e.

Definition parse_date_value (fmt : string) (v : value) : option value :=
  match v with
  | Null => Some Null
  | VStr s => VDate <$> strptime_date fmt s
  | _ => None
  end.

Definition strptime_series (fmt : string) (strict : bool) (s : Series) : Result Series :=
  match dtype s with
  | Utf8 =>
      vs ← mapR (fun v => on_failure strict (name s) (parse_date_value fmt v)) (values s);
      Ok (mkSeries (name s) Date vs)
  | _ => Err (SchemaError (name s))
  end.

(** [e.str.strptime(pl.Date, fmt, strict=...)] *)
Definition str_strptime_with (strict : bool) (fmt : string) (e : Expr) : Expr :=
  fun df => e df ≫= strptime_series fmt strict.

(** [e.str.strptime(pl.Date, fmt)]: Polars' default is [strict=True]. *)
Definition str_strptime (fmt : string) (e : Expr) : Expr := str_strptime_with true fmt e.

End Casting.

(** ** Temporal features *)

Definition date_field (f : Z -> Z) (v : value) : value :=
  match v with
  | VDate d => VInt (f d)
  | _ => Null
  end.

Definition dt_series (out : DataType) (f : Z -> Z) (s : Series) : Result Series :=
  match dtype s with
  | Date => Ok (mkSeries (name s) out (map (date_field f) (values s)))
  | _ => Err (InvalidOperationError (name s))
  end.

Definition dt_year (e : Expr) : Expr := fun df => e df ≫= dt_series Int32 Calendar.year.
Definition dt_month (e : Expr) : Expr := fun df => e df ≫= dt_series Int8 Calendar.month.
Definition dt_quarter (e : Expr) : Expr := fun df => e df ≫= dt_series Int8 Calendar.quarter.
Definition dt_weekday (e : Expr) : Expr := fun df => e df ≫= dt_series Int8 Calendar.weekday.

(** [e >= k] for an integer column and an integer literal; null where the
    cell is null. *)
Definition ge_value (k : Z) (v : value) : value :=
  match v with
  | VInt z => VBool (k <=? z)
  | _ => Null
  end.

Definition ge_lit (k : Z) (e : Expr) : Expr :=
  fun df => s ← e df; Ok (mkSeries (name s) Boolean (map (ge_value k) (values s))).

(** ** Cell: missing-value analysis (source lines 129-160) *)

Definition MISSING_VALUE_THRESHOLD : float := 0.10.

(** [DataFrame.null_count()], one column at a time. *)
Definition null_count (s : Series) : Z :=
  Z.of_nat (length (List.filter is_null (values s))).

(** The null count of a column over the number of rows of the sample.  The
    division is the float one: an empty sample gives NaN. *)
Definition null_proportion (sample : DataFrame) (s : Series) : float :=
  PrimFloat.div (f64_of_Z (null_count s)) (f64_of_Z (Z.of_nat (height sample))).

(** [(sample.null_count() / len(sample)).to_dicts()[0]]: the dict from
    column name to the proportion of nulls, in column order.  A frame with
    no column has no row to index. *)
Definition missing_value_proportions (sample : DataFrame) : Result (list (string * float)) :=
  match sample with
  | [] => Err IndexError
  | _ => Ok (map (fun s => (name s, null_proportion sample s)) sample)
  end.

(** [[col for col, prop in d.items() if prop >= MISSING_VALUE_THRESHOLD]] *)
Definition over_threshold (d : list (string * float)) : list string :=
  (List.filter (fun cp => PrimFloat.leb MISSING_VALUE_THRESHOLD cp.2) d).*1.

Definition columns_to_drop (lf : LazyFrame) : Result (list string) :=
  sample_for_nulls ← collect (lf |> lazy_head 2000000);
  props ← missing_value_proportions sample_for_nulls;
  Ok (over_threshold props).

(** ** Cell: the cleaning pipeline (source lines 163-224) *)

Definition ADDITIONAL_DROPS : list string :=
  [ "Address"; "Vendor Number"; "Item Number"; "Pack";
    "Bottle Volume (ml)"; "State Bottle Cost"; "State Bottle Retail" ].

(** [list(set(columns_to_drop + ADDITIONAL_DROPS))]: the members of the
    union, once each, in the order the set hands them out. *)
Definition all_columns_to_drop (columns_to_drop : list string) : list string :=
  elements (list_to_set (C := gset string) (columns_to_drop ++ ADDITIONAL_DROPS)).

Definition NUMERIC_COLUMNS : list (string * DataType) :=
  [ ("Bottles Sold", Int16); ("Sale (Dollars)", Float64);
    ("Volume Sold (Liters)", Float64); ("Volume Sold (Gallons)", Float64) ].

Definition STRING_COLUMNS : list string :=
  [ "Store Name"; "City"; "Zip Code"; "County";
    "Category"; "Category Name"; "Vendor Name"; "Item Description" ].

(** [[c for c in names if c in schema]] *)
Definition present (sch names : list string) : list string :=
  List.filter (fun c => mem c sch) names.

Section Cleaning.
Context `{Engine}.

(** [lf.drop([col for col in plan if col in lf.collect_schema()])]: the
    first step of the cleaning pipeline, on its own.  Reading the schema is
    the one thing done when the query is built. *)
Definition apply_drop_plan (to_drop : list string) (lf : LazyFrame) : Result LazyFrame :=
  sch ← collect_schema lf;
  Ok (lf |> lazy_drop (present sch to_drop)).

Definition cast_numeric_columns : list Expr :=
  map (fun cd => cast cd.2 (col cd.1)) NUMERIC_COLUMNS.

Definition cast_string_columns (sch : list string) : list Expr :=
  map (fun c => cast Utf8 (col c)) (present sch STRING_COLUMNS).

Definition parse_date : list Expr :=
  [ alias "Date" (str_strptime "%m/%d/%Y" (col "Date")) ].

Definition temporal_features : list Expr :=
  [ alias "Year" (dt_year (col "Date"));
    alias "Month" (dt_month (col "Date"));
    alias "Quarter" (dt_quarter (col "Date"));
    alias "Weekday" (dt_weekday (col "Date"));
    alias "is_weekend" (ge_lit 5 (dt_weekday (col "Date"))) ].

(** The names of the five derived columns. *)
Definition TEMPORAL_COLUMNS : list string :=
  [ "Year"; "Month"; "Quarter"; "Weekday"; "is_weekend" ].

(** The cell's [df_cleaned], from the scanned frame and the names to drop.
    Both schema tests read the schema of [lf], the frame before the drop. *)
Definition df_cleaned (lf : LazyFrame) (to_drop : list string) : Result LazyFrame :=
  sch ← collect_schema lf;
  Ok (lf
      |> lazy_drop (present sch to_drop)
      |> with_columns cast_numeric_columns
      |> with_columns (cast_string_columns sch)
      |> with_columns parse_date
      |> with_columns temporal_features).

End Cleaning.

(** The names the cleaning pipeline hands to [drop]: the drop plan as it
    is applied to a scanned frame. *)
Definition columns_dropped (lf : LazyFrame) : Result (list string) :=
  to_drop ← columns_to_drop lf;
  sch ← collect_schema lf;
  Ok (present sch (all_columns_to_drop to_drop)).

(** ** A reference engine *)

Module Reference.

Definition digit (c : ascii) : option Z :=
  let n := Z.of_nat (nat_of_ascii c) in
  if (48 <=? n) && (n <=? 57) then Some (n - 48) else None.

Fixpoint digits_from (acc : Z) (s : string) : option Z :=
  match s with
  | EmptyString => Some acc
  | String c s' => d ← digit c; digits_from (10 * acc + d) s'
  end.

(** A non-empty run of decimal digits. *)
Definition natural (s : string) : option Z :=
  match s with
  | EmptyString => None
  | _ => digits_from 0 s
  end.

Definition signed {A} (neg : A -> A) (body : string -> option A) (s : string) : option A :=
  match s with
  | String "-" s' => neg <$> body s'
  | String "+" s' => body s'
  | _ => body s
  end.

Definition str_to_int : string -> option Z := signed Z.opp natural.

(** [s] cut at the first [sep]. *)
Fixpoint split_at (sep : ascii) (s : string) : string * option string :=
  match s with
  | EmptyString => (EmptyString, None)
  | String c s' =>
      if Ascii.eqb c sep then (EmptyString, Some s')
      else let '(a, b) := split_at sep s' in (String c a, b)
  end.

(** Plain decimals, [digits] or [digits.digits]: the quotient of two
    integers, each converted to a float. *)
Definition decimal (s : string) : option float :=
  match split_at "." s with
  | (i, None) => f64_of_Z <$> natural i
  | (i, Some f) =>
      m ← natural (i +:+ f);
      Some (PrimFloat.div (f64_of_Z m) (f64_of_Z (10 ^ Z.of_nat (String.length f))))
  end.

Definition str_to_f64 : string -> option float := signed PrimFloat.opp decimal.

Fixpoint strip_zeros (fuel : nat) (frac : Z) : Z :=
  match fuel with
  | O => frac
  | S fuel' => if (frac mod 10 =? 0) && negb (frac =? 0) then strip_zeros fuel' (frac / 10) else frac
  end.

(** The exact decimal expansion of a float. *)
Definition f64_to_str (x : float) : string :=
  match Prim2SF x with
  | S754_nan => "NaN"
  | S754_infinity s => if s then "-inf" else "inf"
  | S754_zero s => if s then "-0.0" else "0.0"
  | S754_finite s m e =>
      let sign : string := if s then "-" else "" in
      if 0 <=? e then sign +:+ pretty (Z.pos m * 2 ^ e) +:+ ".0"
      else
        let k := - e in
        let whole := Z.pos m / 2 ^ k in
        let frac := (Z.pos m mod 2 ^ k) * 5 ^ k in
        let width := Z.to_nat k in
        let shown := pretty frac in
        let padded := String.concat "" (replicate (width - String.length shown) "0") +:+ shown in
        let kept := (width - (String.length shown
                              - String.length (pretty (strip_zeros width frac))))%nat in
        sign +:+ pretty whole +:+ "."
             +:+ (if frac =? 0 then "0" else String.substring 0 kept padded)
  end.

Definition days_in_month (y m : Z) : Z :=
  if m =? 2 then
    if ((y mod 4 =? 0) && negb (y mod 100 =? 0)) || (y mod 400 =? 0) then 29 else 28
  else if (m =? 4) || (m =? 6) || (m =? 9) || (m =? 11) then 30
  else 31.

Definition civil (y m d : Z) : option Z :=
  if (1 <=? m) && (m <=? 12) && (1 <=? d) && (d <=? days_in_month y m)
  then Some (Calendar.days_from_civil y m d)
  else None.

(** The one format the notebook uses, month/day/year. *)
Definition strptime_date (fmt s : string) : option Z :=
  if String.eqb fmt "%m/%d/%Y" then
    match split_at "/" s with
    | (mm, Some rest) =>
        match split_at "/" rest with
        | (dd, Some yyyy) =>
            m ← natural mm; d ← natural dd; y ← natural yyyy;
            if (String.length mm <=? 2)%nat && (String.length dd <=? 2)%nat
               && (String.length yyyy =? 4)%nat
            then civil y m d else None
        | _ => None
        end
    | _ => None
    end
  else None.

Definition width (dt : DataType) (v : value) : Z :=
  match dt, v with
  | Utf8, VStr s => Z.of_nat (String.length s)
  | Utf8, _ => 0
  | (Int8 | Boolean), _ => 1
  | Int16, _ => 2
  | (Int32 | UInt32 | Date), _ => 4
  | (Int64 | Float64), _ => 8
  end.

Definition estimated_size (df : DataFrame) : Z :=
  foldr (fun s acc => foldr (fun v a => width (dtype s) v + a) acc (values s)) 0 df.

End Reference.

#[global] Instance reference_engine : Engine := {
  str_to_int := Reference.str_to_int;
  str_to_f64 := Reference.str_to_f64;
  f64_to_str := Reference.f64_to_str;
  strptime_date := Reference.strptime_date;
  estimated_size := Reference.estimated_size;
}.

(** ** Regular expressions, as far as the notebook writes them

    Every pattern of the notebook is an optional [(?i)] followed by
    literal alternatives separated by [|].  [(?i)] is the regex crate's
    Unicode simple case folding: besides the two cases of each ASCII letter
    it folds U+212A (Kelvin sign) to K and U+017F (long s) to S. *)

Module Regex.

Definition upper (c : ascii) : ascii :=
  let n := nat_of_ascii c in
  if ((97 <=? n) && (n <=? 122))%nat then ascii_of_nat (n - 32) else c.

(** Text under case folding; the text is UTF-8. *)
Fixpoint fold_case (s : string) : string :=
  match s with
  | EmptyString => EmptyString
  | String c rest =>
      match rest with
      | String c2 rest2 =>
          if Ascii.eqb c "197" && Ascii.eqb c2 "191" then String "S" (fold_case rest2)
          else
            match rest2 with
            | String c3 rest3 =>
                if Ascii.eqb c "226" && Ascii.eqb c2 "132" && Ascii.eqb c3 "170"
                then String "K" (fold_case rest3)
                else String (upper c) (fold_case rest)
            | EmptyString => String (upper c) (fold_case rest)
            end
      | EmptyString => String (upper c) EmptyString
      end
  end.

(** [needle] occurs somewhere in [hay]. *)
Fixpoint occurs (needle hay : string) : bool :=
  String.prefix needle hay ||
  match hay with
  | EmptyString => false
  | String _ hay' => occurs needle hay'
  end.

(** The alternatives of a pattern body: the pieces between the [|]. *)
Fixpoint alternatives (body : string) : list string :=
  match body with
  | EmptyString => [EmptyString]
  | String c body' =>
      if Ascii.eqb c "|" then EmptyString :: alternatives body'
      else match alternatives body' with
           | a :: rest => String c a :: rest
           | [] => [String c EmptyString]
           end
  end.

(** The unanchored search [Regex::is_match]. *)
Definition is_match (pattern text : string) : bool :=
  match pattern with
  | String "(" (String "?" (String "i" (String ")" body))) =>
      existsb (fun a => occurs (fold_case a) (fold_case text)) (alternatives body)
  | _ => existsb (fun a => occurs a text) (alternatives pattern)
  end.

End Regex.

(** [e.str.contains(pattern)]: a Boolean column, null where the text is
    null; only a text column has the [str] namespace. *)
Definition contains_value (pattern : string) (v : value) : value :=
  match v with
  | VStr t => VBool (Regex.is_match pattern t)
  | _ => Null
  end.

Definition str_contains (pattern : string) (e : Expr) : Expr :=
  fun df =>
    s ← e df;
    match dtype s with
    | Utf8 => Ok (mkSeries (name s) Boolean (map (contains_value pattern) (values s)))
    | _ => Err (SchemaError (name s))
    end.

(** One row of a [when/then]: the branch is taken where its condition is
    true; a false or null condition passes the row on. *)
Definition pick (cond label rest : value) : value :=
  match cond with
  | VBool true => label
  | _ => rest
  end.

Fixpoint when_rows (conds : list (list value * value)) (otherwise : value) : list value :=
  match conds with
  | [] => []
  | [(c, label)] => map (fun cv => pick cv label otherwise) c
  | (c, label) :: rest => zip_with (fun cv r => pick cv label r) c (when_rows rest otherwise)
  end.

(** [pl.when(c1).then(pl.lit(l1)).when(c2).then(pl.lit(l2))...
    .otherwise(pl.lit(l))], the labels being text literals. *)
Definition when_then_otherwise (branches : list (Expr * string)) (otherwise : string) : Expr :=
  fun df =>
    conds ← mapR (fun b => c ← b.1 df; Ok (values c, VStr b.2)) branches;
    Ok (mkSeries "literal" Utf8 (when_rows conds (VStr otherwise))).

(** ** Cell: category mapping (source lines 257-343) *)

(** The [when(...).then(...)] pairs, in the order the source chains them. *)
Definition CATEGORY_RULES : list (string * string) :=
  [ ("(?i)WHISKEY|WHISKIES|WHISKY|BOURBON|SCOTCH", "WHISKEY");
    ("(?i)VODKA", "VODKA");
    ("(?i)RUM", "RUM");
    ("(?i)TEQUILA|MEZCAL", "TEQUILA & MEZCAL");
    ("(?i)GIN", "GIN");
    ("(?i)BRANDY|BRANDIES|COGNAC", "BRANDY & COGNAC");
    ("(?i)SCHNAPPS", "SCHNAPPS");
    ("(?i)AMARETTO|CORDIAL|LIQUEUR|ANISETTE|CREME|ROCK & RYE|TRIPLE SEC",
     "LIQUEURS & CORDIALS");
    ("(?i)AMERICAN ALCOHOL|AMERICAN DISTILLED SPIRITS|DISTILLED SPIRITS SPECIALTY|IMPORTED DISTILLED SPIRITS|NEUTRAL GRAIN SPIRITS",
     "SPECIALTY & OTHER SPIRITS");
    ("(?i)COCKTAIL|RTD", "READY-TO-DRINK");
    ("(?i)IOWA DISTILLER", "CRAFT/LOCAL");
    ("(?i)DECANTERS|DELISTED|SPECIAL ORDER|HIGH PROOF BEER|HOLIDAY VAP|TEMPORARY",
     "ADMINISTRATIVE/NON-PRODUCT") ].

Definition major_category : Expr :=
  alias "Major_Category"
    (when_then_otherwise
       (map (fun r => (str_contains r.1 (col "Category Name"), r.2)) CATEGORY_RULES)
       "UNCATEGORIZED").

Definition df_with_categories (df_cleaned : LazyFrame) : LazyFrame :=
  df_cleaned |> with_columns [ major_category ].

(** The label of one "Category Name" cell: the first rule whose pattern is
    found in the text, the fallback when there is none or the cell is
    null. *)
Fixpoint first_match (rules : list (string * string)) (otherwise : string) (v : value) : value :=
  match rules with
  | [] => VStr otherwise
  | (pattern, label) :: rest =>
      pick (contains_value pattern v) (VStr label) (first_match rest otherwise v)
  end.

Definition classify (v : value) : value := first_match CATEGORY_RULES "UNCATEGORIZED" v.

(** The pattern is found in the cell. *)
Definition matches (pattern : string) (v : value) : bool :=
  match contains_value pattern v with
  | VBool true => true
  | _ => false
  end.

(** ** Grouped aggregation, sorting and the ratio *)

(** The order and the equality of floats that sorting and grouping use:
    finite values by magnitude (the two zeros alike), then the infinities,
    NaN above all and equal to itself.  A finite float is [m * 2^e] with
    [e >= -1074], so the rank is an integer. *)
Definition f64_rank (x : float) : Z :=
  match Prim2SF x with
  | S754_zero _ => 0
  | S754_finite s m e =>
      let a := Z.pos m * 2 ^ (e + 1074) in if s then - a else a
  | S754_infinity s => if s then - 2 ^ 2100 else 2 ^ 2100
  | S754_nan => 2 ^ 2101
  end.

Definition rank (v : value) : Z :=
  match v with
  | Null => 0
  | VInt z => z * 2 ^ 1074
  | VFloat x => f64_rank x
  | VStr _ => 0
  | VDate d => d * 2 ^ 1074
  | VBool b => if b then 2 ^ 1074 else 0
  end.

Definition value_eqb (a b : value) : bool :=
  match a, b with
  | Null, Null => true
  | VInt x, VInt y => x =? y
  | VFloat x, VFloat y => f64_rank x =? f64_rank y
  | VStr x, VStr y => String.eqb x y
  | VDate x, VDate y => x =? y
  | VBool x, VBool y => Bool.eqb x y
  | _, _ => false
  end.

(** The distinct values of a column, each at its first occurrence. *)
Fixpoint distinct (l : list value) : list value :=
  match l with
  | [] => []
  | v :: l' => v :: List.filter (fun w => negb (value_eqb v w)) (distinct l')
  end.

Fixpoint keep (mask : list bool) (vs : list value) : list value :=
  match mask, vs with
  | b :: mask', v :: vs' => if b then v :: keep mask' vs' else keep mask' vs'
  | _, _ => []
  end.

(** The rows of one group: those whose key is [g] (a null key is a group
    of its own). *)
Definition group_rows (key : string) (g : value) (df : DataFrame) : Result DataFrame :=
  k ← col key df;
  let mask := map (value_eqb g) (values k) in
  Ok (map (fun s => mkSeries (name s) (dtype s) (keep mask (values s))) df).

(** [before descending a b]: [a] may stand before [b] in the sorted
    column.  Nulls come first, as Polars places them by default. *)
Definition before (descending : bool) (a b : value) : bool :=
  match a, b with
  | Null, _ => true
  | _, Null => false
  | _, _ => if descending then rank b <=? rank a else rank a <=? rank b
  end.

Definition gather (rows : list nat) (vs : list value) : list value :=
  map (fun i => default Null (vs !! i)) rows.

(** The cells of a Float64 column as the sum reads them: a float, or
    nothing where the cell is null. *)
Definition f64_cells (vs : list value) : list (option float) :=
  map (fun v => match v with VFloat x => Some x | _ => None end) vs.

(** What Polars leaves to the engine when a query groups, sums and sorts.
    - [float_sum]: the sum of the cells of a Float64 column, the nulls
      skipped.  Float addition is not associative and the kernel adds in
      blocks, so the sum is known only as a function of the cells.
    - [group_order]: the order in which [group_by], called without
      [maintain_order], hands out the groups, one for each distinct key.
    - [row_order]: the rows of a column in the order [sort] puts them.  The
      column comes out sorted, the nulls first; the sort is not stable, so
      rows that compare equal come in any order. *)
Class Executor := {
  float_sum : list (option float) -> float;
  group_order : list value -> list value;
  group_order_distinct : forall keys, group_order keys ≡ₚ distinct keys;
  row_order : bool -> list value -> list nat;
  row_order_rows : forall descending vs, row_order descending vs ≡ₚ seq 0 (length vs);
  row_order_sorted : forall descending vs,
    Sorted (fun a b => before descending a b = true) (gather (row_order descending vs) vs)
}.

(** The choices of one executor, used to run the ranked queries on concrete
    tables: it adds from left to right, keeps the groups in the order of
    their first row, and sorts stably. *)
Definition left_to_right_sum (cells : list (option float)) : float :=
  foldl (fun acc c => match c with Some x => PrimFloat.add acc x | None => acc end)
        0%float cells.

Fixpoint insert_by {A} (le : A -> A -> bool) (x : A) (l : list A) : list A :=
  match l with
  | [] => [x]
  | y :: l' => if le x y then x :: l else y :: insert_by le x l'
  end.

(** A stable sort: equal rows keep their order. *)
Definition sort_by {A} (le : A -> A -> bool) (l : list A) : list A :=
  foldr (insert_by le) [] l.

(** The row numbers of a column in sorted order. *)
Definition sorted_rows (descending : bool) (vs : list value) : list nat :=
  map snd (sort_by (fun a b => before descending a.1 b.1) (zip vs (seq 0 (length vs)))).

Section Ranking.
Context `{Executor}.

Definition sum_f64 (vs : list value) : float := float_sum (f64_cells vs).

(** [e.sum()] on a Float64 column: a float, never null.  The ranked cells
    sum Float64 columns only; the sum of a column of another type is not
    modelled. *)
Definition sum (e : Expr) : Expr :=
  fun df =>
    s ← e df;
    match dtype s with
    | Float64 => Ok (mkSeries (name s) Float64 [VFloat (sum_f64 (values s))])
    | _ => Err (InvalidOperationError (name s))
    end.

(** [e.n_unique()]: the number of distinct values, a null counting as one. *)
Definition n_unique (e : Expr) : Expr :=
  fun df =>
    s ← e df;
    Ok (mkSeries (name s) UInt32 [VInt (Z.of_nat (length (distinct (values s))))]).

(** The single value of an aggregated column. *)
Definition scalar (s : Series) : value := default Null (head (values s)).

(** [DataFrame.select(exprs)] *)
Definition select (exprs : list Expr) (df : DataFrame) : Result DataFrame :=
  mapR (fun e => e df) exprs.

(** [group_by(key).agg(aggs)]: one row per distinct key, in the order the
    executor hands the groups out; each aggregate is evaluated on the rows
    of its group.  The aggregates are resolved on the schema first. *)
Definition group_by_frame (key : string) (aggs : list Expr) (df : DataFrame) : Result DataFrame :=
  k ← col key df;
  shapes ← select aggs (clear_rows df);
  let gs := group_order (values k) in
  rows ← mapR (fun g => sub ← group_rows key g df; select aggs sub) gs;
  Ok (mkSeries key (dtype k) gs
      :: imap (fun j sh => mkSeries (name sh) (dtype sh)
                             (map (fun row => default Null (scalar <$> row !! j)) rows))
              shapes).

Definition group_by (key : string) (aggs : list Expr) : LazyFrame -> LazyFrame :=
  then_do (group_by_frame key aggs).

(** [a / b], the true division of two numeric columns: a Float64 column,
    null where an operand is null.  A zero divisor is not special: the
    quotient is the IEEE one, an infinity or NaN. *)
Definition number (v : value) : option float :=
  match v with
  | VInt z => Some (f64_of_Z z)
  | VFloat x => Some x
  | _ => None
  end.

Definition div_value (a b : value) : value :=
  match number a, number b with
  | Some x, Some y => VFloat (PrimFloat.div x y)
  | _, _ => Null
  end.

Definition truediv (a b : Expr) : Expr :=
  fun df =>
    x ← a df; y ← b df;
    Ok (mkSeries (name x) Float64 (zip_with div_value (values x) (values y))).

Definition is_numeric (dt : DataType) : bool :=
  match dt with
  | Utf8 => false
  | _ => true
  end.

(** [sort(by, descending=...)] on a numeric column; the notebook's grouped
    queries sort by a sum or a ratio. *)
Definition sort_frame (by_ : string) (descending : bool) (df : DataFrame) : Result DataFrame :=
  s ← col by_ df;
  if is_numeric (dtype s) then
    let rows := row_order descending (values s) in
    Ok (map (fun c => mkSeries (name c) (dtype c) (gather rows (values c))) df)
  else Err (InvalidOperationError by_).

Definition sort (by_ : string) (descending : bool) : LazyFrame -> LazyFrame :=
  then_do (sort_frame by_ descending).

(** ** Cells: the ranked aggregations (source lines 461-486, 562-803) *)

(** The shape all the ranked cells share:
    [q.group_by(key).agg([pl.col(measure).sum().alias(total)])
      .sort(total, descending=...).head(n).collect()],
    the query first, then its collection. *)
Definition group_top_n_query (key measure total : string) (n : Z) (descending : bool)
    (q : LazyFrame) : LazyFrame :=
  q |> group_by key [ alias total (sum (col measure)) ]
    |> sort total descending
    |> lazy_head n.

Definition group_top_n (key measure total : string) (n : Z) (descending : bool)
    (q : LazyFrame) : Result DataFrame :=
  group_top_n_query key measure total n descending q |> collect.

Definition top_categories : LazyFrame -> Result DataFrame :=
  group_top_n "Major_Category" "Sale (Dollars)" "Total Revenue" 10 true.

Definition top_products_revenue : LazyFrame -> Result DataFrame :=
  group_top_n "Item Description" "Sale (Dollars)" "Total Revenue" 20 true.

Definition top_products_volume : LazyFrame -> Result DataFrame :=
  group_top_n "Item Description" "Volume Sold (Liters)" "Total Volume" 20 true.

Definition top_counties : LazyFrame -> Result DataFrame :=
  group_top_n "County" "Sale (Dollars)" "Total Revenue" 15 true.

Definition top_cities : LazyFrame -> Result DataFrame :=
  group_top_n "City" "Sale (Dollars)" "Total Sales" 20 true.

Definition avg_sale_per_txn : Expr :=
  alias "Avg Sale per Txn" (truediv (col "Total Sales") (col "Num Transactions")).

Definition city_efficiency_query (df_with_categories : LazyFrame) : LazyFrame :=
  df_with_categories
  |> group_by "City"
       [ alias "Total Sales" (sum (col "Sale (Dollars)"));
         alias "Num Transactions" (n_unique (col "Invoice/Item Number")) ]
  |> with_columns [ avg_sale_per_txn ]
  |> sort "Avg Sale per Txn" true
  |> lazy_head 20.

Definition city_efficiency (df_with_categories : LazyFrame) : Result DataFrame :=
  city_efficiency_query df_with_categories |> collect.

(** The total of the group of key [g], read off the key column [k] and the
    measure column [m] of the frame that is grouped: the sum of the measure
    over the rows whose key is [g]. *)
Definition group_total (k m : Series) (g : value) : float :=
  float_sum (f64_cells (keep (map (value_eqb g) (values k)) (values m))).

End Ranking.

(** ** Cell: size estimation (source lines 73-95) *)

Section Estimation.
Context `{Engine}.

(** [sample_bytes * (num_rows / 100_000)], Python's float arithmetic. *)
Definition estimated_total_bytes (sample_bytes num_rows : Z) : float :=
  PrimFloat.mul (f64_of_Z sample_bytes)
                (PrimFloat.div (f64_of_Z num_rows) (f64_of_Z 100000)).

(** The cell: the row and column counts and the estimate. *)
Definition size_estimate (lf : LazyFrame) : Result (Z * Z * float) :=
  all ← collect lf;
  let num_rows := Z.of_nat (height all) in
  sch ← collect_schema lf;
  let num_cols := Z.of_nat (length sch) in
  sample ← collect (lf |> lazy_head 100000);
  let sample_bytes := estimated_size sample in
  Ok (num_rows, num_cols, estimated_total_bytes sample_bytes num_rows).

End Estimation.


(** ** The notebook up to the cleaned frame *)

Section Notebook.
Context `{Engine}.

(** The cells in order: scan the file, plan the drops, build the cleaning
    pipeline, collect it. *)
Definition cleaned (file : DataFrame) : Result DataFrame :=
  let lf := scan_parquet file in
  to_drop ← columns_to_drop lf;
  q ← df_cleaned lf (all_columns_to_drop to_drop);
  collect q.

End Notebook.

(** The estimate as the specification words it:
    [(sample_byte_size / sample_rows) * row_count], the sample size clamped
    to the row count, zero for no row. *)
Definition spec_estimated_bytes (sample_byte_size sample_rows row_count : Z) : float :=
  if row_count =? 0 then 0%float
  else PrimFloat.mul
         (PrimFloat.div (f64_of_Z sample_byte_size)
                        (f64_of_Z (Z.min sample_rows row_count)))
         (f64_of_Z row_count).

(** A frame without a row, as the planner sees the source. *)
Definition no_rows (df : DataFrame) : Prop := forall s, s ∈ df -> values s = [].

(** The columns the cleaning pipeline reads without asking whether they
    exist: the numeric ones and "Date". *)
Definition REQUIRED_COLUMNS : list string := NUMERIC_COLUMNS.*1 ++ [ "Date" ].

(** A query that cannot be resolved for want of the column [c]: its schema
    cannot be read and it cannot be collected, and the error is raised on
    the schema of the source, whatever its rows. *)
Definition unresolved (lf : LazyFrame) (c : string) : Prop :=
  plan lf (clear_rows (source lf)) = Err (ColumnNotFoundError c)
  /\ collect_schema lf = Err (ColumnNotFoundError c)
  /\ collect lf = Err (ColumnNotFoundError c).


(** ** Tables for the scenarios *)

(** A file of one sale. *)
Definition one_sale (date bottles : value) : DataFrame :=
  [ mkSeries "Invoice/Item Number" Utf8 [ VStr "INV-00001" ];
    mkSeries "Date" Utf8 [ date ];
    mkSeries "City" Utf8 [ VStr "Ames" ];
    mkSeries "Category Name" Utf8 [ VStr "Premium Vodka" ];
    mkSeries "Bottles Sold" Int64 [ bottles ];
    mkSeries "Sale (Dollars)" Float64 [ VFloat 12.5 ];
    mkSeries "Volume Sold (Liters)" Float64 [ VFloat 0.75 ];
    mkSeries "Volume Sold (Gallons)" Float64 [ VFloat 0.2 ] ].

(** The same file without its "Date" column. *)
Definition one_sale_undated : DataFrame :=
  List.filter (fun s => negb (has_name "Date" s)) (one_sale Null (VInt 3)).

(** A file of one sale without the "City" column. *)
Definition one_sale_no_city : DataFrame :=
  List.filter (fun s => negb (has_name "City" s)) (one_sale (VStr "01/07/2022") (VInt 3)).

(** A file of 50,000 rows, fewer than the 100,000 the estimate samples. *)
Definition small_file : DataFrame :=
  [ mkSeries "Bottles Sold" Int64 (replicate (Z.to_nat 50000) (VInt 6)) ].


(** Five "Category Name" cells, one of them null. *)
Definition category_sample : DataFrame :=
  [ mkSeries "Category Name" Utf8
      [ VStr "Iowa Distillery Whiskey"; VStr "Triple Sec"; VStr "Unknown Spirit Blend";
        Null; VStr "Premium Vodka" ] ].

Definition category_sample_labels : list value :=
  [ VStr "WHISKEY"; VStr "LIQUEURS & CORDIALS"; VStr "UNCATEGORIZED";
    VStr "UNCATEGORIZED"; VStr "VODKA" ].

(** A frame that already carries a column named "Major_Category". *)
Definition relabelled : DataFrame :=
  [ mkSeries "Category Name" Utf8 [ VStr "Premium Vodka" ];
    mkSeries "Major_Category" Utf8 [ VStr "HAND LABEL" ] ].

(** A sample of 1,000 rows: X is null in 150 of them, Y in 50. *)
Definition null_sample : DataFrame :=
  [ mkSeries "X" Int64 (replicate 150 Null ++ replicate 850 (VInt 1));
    mkSeries "Y" Int64 (replicate 50 Null ++ replicate 950 (VInt 1));
    mkSeries "Pack" Int64 (replicate 1000 (VInt 6)) ].

(** Five sales in three groups: A sums to 300, B to 500, C to 500. *)
Definition group_sample : DataFrame :=
  [ mkSeries "Group" Utf8 [ VStr "A"; VStr "B"; VStr "A"; VStr "C"; VStr "C" ];
    mkSeries "Amount" Float64
      [ VFloat 100; VFloat 500; VFloat 200; VFloat 250; VFloat 250 ] ].

(** * Properties *)

(** ** The error monad *)

Lemma bind_Ok {A B} (m : Result A) (f : A -> Result B) (b : B) :
  m ≫= f = Ok b <-> exists a, m = Ok a /\ f a = Ok b.
Proof.
  destruct m as [a | e]; simpl; split.
  - intros Hf. exists a. split; [reflexivity | exact Hf].
  - intros (a' & Ha & Hf). injection Ha as ->. exact Hf.
  - discriminate.
  - intros (a' & Ha & _). discriminate.
Qed.

Lemma bind_of_Ok {A B} (a : A) (f : A -> Result B) : Ok a ≫= f = f a.
Proof. reflexivity. Qed.

Lemma bind_of_Err {A B} (e : PyError) (f : A -> Result B) : Err e ≫= f = Err e.
Proof. reflexivity. Qed.

Lemma fmap_Ok {A B} (m : Result A) (f : A -> B) (b : B) :
  f <$> m = Ok b <-> exists a, m = Ok a /\ b = f a.
Proof.
  destruct m as [a | e]; simpl; split.
  - intros [= <-]. exists a. split; reflexivity.
  - intros (a' & [= <-] & ->). reflexivity.
  - discriminate.
  - intros (a' & Ha & _). discriminate.
Qed.

(** Takes apart a hypothesis [x ← m; ... = Ok b], bind after bind. *)
Ltac ok_inv H :=
  repeat
    (let a := fresh "r" in
     let Ha := fresh "E" in
     apply bind_Ok in H as (a & Ha & H));
  try (injection H as H).

Lemma mapR_Forall2 {A B} (f : A -> Result B) (l : list A) (bs : list B) :
  mapR f l = Ok bs <-> Forall2 (fun a b => f a = Ok b) l bs.
Proof.
  revert bs. induction l as [| a l IH]; intros bs; simpl.
  - split.
    + intros [= <-]. constructor.
    + intros Hnil. inversion Hnil. reflexivity.
  - split.
    + intros Hm. ok_inv Hm. subst bs.
      constructor; [assumption | apply IH; assumption].
    + intros Hcons. inversion Hcons as [| ? b ? bs' Hb Hrest]; subst.
      rewrite Hb. simpl. apply IH in Hrest. rewrite Hrest. reflexivity.
Qed.

Lemma mapR_cons_Ok {A B} (f : A -> Result B) (a : A) (l : list A) (bs : list B) :
  mapR f (a :: l) = Ok bs -> exists b bs', f a = Ok b /\ mapR f l = Ok bs' /\ bs = b :: bs'.
Proof.
  simpl. intros Hm. ok_inv Hm. eauto.
Qed.

Lemma mapR_nil_Ok {A B} (f : A -> Result B) (bs : list B) : mapR f [] = Ok bs -> bs = [].
Proof. simpl. congruence. Qed.

Lemma mapR_map {A B} (f : A -> B) (l : list A) :
  mapR (fun a => Ok (f a)) l = Ok (map f l).
Proof.
  induction l as [| a l IH]; simpl; [reflexivity |].
  rewrite IH. reflexivity.
Qed.

Lemma mapR_ext {A B} (f g : A -> Result B) (l : list A) :
  (forall a, a ∈ l -> f a = g a) -> mapR f l = mapR g l.
Proof.
  induction l as [| a l IH]; intros Hfg; simpl; [reflexivity |].
  rewrite Hfg by left. rewrite IH; [reflexivity |].
  intros b Hb. apply Hfg. right. exact Hb.
Qed.

(** ** Columns of a frame *)

Lemma has_name_true (c : string) (s : Series) : has_name c s = true <-> name s = c.
Proof. unfold has_name. apply String.eqb_eq. Qed.

Lemma has_name_false (c : string) (s : Series) : has_name c s = false <-> name s <> c.
Proof. unfold has_name. apply String.eqb_neq. Qed.

Lemma column_name (c : string) (df : DataFrame) (s : Series) :
  column c df = Some s -> name s = c.
Proof.
  unfold column. intros Hfind. apply List.find_some in Hfind as [_ Hname].
  apply has_name_true. exact Hname.
Qed.

Lemma mem_true (c : string) (l : list string) : mem c l = true <-> c ∈ l.
Proof.
  unfold mem. rewrite List.existsb_exists. split.
  - intros (x & Hin & Heq). apply String.eqb_eq in Heq as ->.
    apply list_elem_of_In. exact Hin.
  - intros Hin. exists c. split; [apply list_elem_of_In; exact Hin | apply String.eqb_refl].
Qed.

Lemma mem_false (c : string) (l : list string) : mem c l = false <-> c ∉ l.
Proof.
  rewrite <- mem_true. destruct (mem c l); split; congruence.
Qed.

Lemma column_None (c : string) (df : DataFrame) :
  column c df = None <-> mem c (columns df) = false.
Proof.
  unfold column, columns. induction df as [| s df IH]; simpl; [tauto |].
  unfold has_name at 1. rewrite (String.eqb_sym c (name s)).
  destruct (String.eqb (name s) c); simpl; [split; discriminate | exact IH].
Qed.

Lemma column_Some_mem (c : string) (df : DataFrame) (s : Series) :
  column c df = Some s -> mem c (columns df) = true.
Proof.
  intros Hcol. destruct (mem c (columns df)) eqn:Hmem; [reflexivity |].
  apply column_None in Hmem. congruence.
Qed.

Lemma existsb_has_name (c : string) (df : DataFrame) :
  existsb (has_name c) df = mem c (columns df).
Proof.
  unfold mem, columns. induction df as [| s df IH]; simpl; [reflexivity |].
  rewrite IH. unfold has_name. rewrite (String.eqb_sym c (name s)). reflexivity.
Qed.

Lemma find_app {A} (f : A -> bool) (l l' : list A) :
  List.find f (l ++ l') = match List.find f l with Some x => Some x | None => List.find f l' end.
Proof.
  induction l as [| a l IH]; simpl; [reflexivity |].
  destruct (f a); [reflexivity | exact IH].
Qed.

Lemma find_replaced (s : Series) (c : string) (df : DataFrame) :
  List.find (has_name c) (map (fun t => if has_name (name s) t then s else t) df)
  = if String.eqb (name s) c
    then (if existsb (has_name (name s)) df then Some s else None)
    else List.find (has_name c) df.
Proof.
  induction df as [| t df IH]; simpl.
  - destruct (String.eqb (name s) c); reflexivity.
  - unfold has_name in *.
    destruct (String.eqb_spec (name t) (name s)) as [Hts | Hts]; simpl.
    + rewrite Hts. destruct (String.eqb (name s) c) eqn:Hsc; [reflexivity | exact IH].
    + destruct (String.eqb_spec (name t) c) as [Htc | Htc].
      * destruct (String.eqb_spec (name s) c) as [Hsc | Hsc]; [congruence | reflexivity].
      * exact IH.
Qed.

Lemma column_with_column (s : Series) (df : DataFrame) (c : string) :
  column c (with_column s df) = if String.eqb (name s) c then Some s else column c df.
Proof.
  unfold with_column, column.
  destruct (existsb (has_name (name s)) df) eqn:Hex.
  - rewrite find_replaced, Hex. reflexivity.
  - rewrite find_app.
    destruct (String.eqb_spec (name s) c) as [Hsc | Hsc].
    + subst c. rewrite existsb_has_name in Hex. apply column_None in Hex.
      unfold column in Hex. rewrite Hex. simpl. unfold has_name.
      rewrite String.eqb_refl. reflexivity.
    + destruct (List.find (has_name c) df); [reflexivity |].
      simpl. unfold has_name. apply String.eqb_neq in Hsc. rewrite Hsc. reflexivity.
Qed.

Lemma column_foldl_with_column (news : list Series) (df : DataFrame) (c : string) :
  column c (foldl (fun acc s => with_column s acc) df news)
  = match List.find (has_name c) (rev news) with
    | Some s => Some s
    | None => column c df
    end.
Proof.
  revert df. induction news as [| s news IH]; intros df; simpl; [reflexivity |].
  rewrite IH, find_app, column_with_column. simpl.
  destruct (List.find (has_name c) (rev news)); [reflexivity |].
  unfold has_name. destruct (String.eqb (name s) c); reflexivity.
Qed.

(** ** Lazy frames *)

Lemma collect_scan (file : DataFrame) : collect (scan_parquet file) = Ok file.
Proof. reflexivity. Qed.

Lemma collect_head_scan (n : Z) (file : DataFrame) :
  collect (scan_parquet file |> lazy_head n) = Ok (head_frame n file).
Proof. reflexivity. Qed.

Lemma columns_clear_rows (df : DataFrame) : columns (clear_rows df) = columns df.
Proof.
  unfold columns, clear_rows. rewrite List.map_map. reflexivity.
Qed.

Lemma collect_schema_scan (file : DataFrame) :
  collect_schema (scan_parquet file) = Ok (columns file).
Proof.
  unfold collect_schema. simpl. rewrite columns_clear_rows. reflexivity.
Qed.

(** A query that collects was built on a query that collects, and its last
    step ran on that result. *)
Lemma collect_then_do (f : DataFrame -> Result DataFrame) (q : LazyFrame) (out : DataFrame) :
  collect (then_do f q) = Ok out ->
  exists mid, collect q = Ok mid /\ f mid = Ok out.
Proof.
  unfold collect, then_do. simpl. intros Hc.
  apply bind_Ok in Hc as (o0 & Hplan0 & Hc).
  apply bind_Ok in Hplan0 as (m0 & Hm0 & _).
  apply bind_Ok in Hc as (mid & Hmid & Hf).
  exists mid. rewrite Hm0. simpl. split; assumption.
Qed.

(** ** The classifier *)

Lemma pick_matches (pattern : string) (v label rest : value) :
  pick (contains_value pattern v) label rest = if matches pattern v then label else rest.
Proof.
  unfold matches, pick. destruct (contains_value pattern v) as [| | | | | []]; reflexivity.
Qed.

(** The chain of conditions is the first rule that matches. *)
Lemma first_match_find (rules : list (string * string)) (otherwise : string) (v : value) :
  first_match rules otherwise v
  = match List.find (fun r => matches r.1 v) rules with
    | Some r => VStr r.2
    | None => VStr otherwise
    end.
Proof.
  induction rules as [| [pattern label] rules IH]; simpl; [reflexivity |].
  rewrite pick_matches. destruct (matches pattern v); [reflexivity | exact IH].
Qed.

Lemma first_match_earlier (pre post : list (string * string)) (pattern label otherwise : string)
    (v : value) :
  (forall r, r ∈ pre -> matches r.1 v = false) ->
  matches pattern v = true ->
  first_match (pre ++ (pattern, label) :: post) otherwise v = VStr label.
Proof.
  intros Hpre Hhit. induction pre as [| [p l] pre IH]; simpl.
  - rewrite pick_matches, Hhit. reflexivity.
  - rewrite pick_matches.
    assert (Hmiss : matches p v = false) by (apply (Hpre (p, l)); left).
    rewrite Hmiss. apply IH. intros r Hr. apply Hpre. right. exact Hr.
Qed.

Lemma zip_with_map_map {A B C D} (f : B -> C -> D) (g : A -> B) (h : A -> C) (l : list A) :
  zip_with f (map g l) (map h l) = map (fun a => f (g a) (h a)) l.
Proof.
  induction l as [| a l IH]; simpl; [reflexivity |]. rewrite IH. reflexivity.
Qed.

Lemma when_rows_first_match (rules : list (string * string)) (otherwise : string)
    (vs : list value) :
  rules <> [] ->
  when_rows (map (fun r => (map (contains_value r.1) vs, VStr r.2)) rules) (VStr otherwise)
  = map (first_match rules otherwise) vs.
Proof.
  induction rules as [| [p l] rules IH]; [congruence |]. intros _.
  destruct rules as [| r rules].
  - simpl. rewrite List.map_map. reflexivity.
  - change (when_rows (map _ ((p, l) :: r :: rules)) (VStr otherwise))
      with (zip_with (fun cv rest => pick cv (VStr l) rest)
              (map (contains_value p) vs)
              (when_rows (map (fun r => (map (contains_value r.1) vs, VStr r.2)) (r :: rules))
                 (VStr otherwise))).
    rewrite IH by discriminate. rewrite zip_with_map_map. reflexivity.
Qed.

Lemma str_contains_col (pattern c : string) (df : DataFrame) (s : Series) :
  column c df = Some s -> dtype s = Utf8 ->
  str_contains pattern (col c) df
  = Ok (mkSeries (name s) Boolean (map (contains_value pattern) (values s))).
Proof.
  intros Hcol Hty. unfold str_contains, col. rewrite Hcol. simpl. rewrite Hty. reflexivity.
Qed.

Lemma when_then_otherwise_rules (rules : list (string * string)) (otherwise c : string)
    (df : DataFrame) (s : Series) :
  column c df = Some s -> dtype s = Utf8 -> rules <> [] ->
  when_then_otherwise (map (fun r => (str_contains r.1 (col c), r.2)) rules) otherwise df
  = Ok (mkSeries "literal" Utf8 (map (first_match rules otherwise) (values s))).
Proof.
  intros Hcol Hty Hne. unfold when_then_otherwise.
  assert (Hconds :
    mapR (fun b : Expr * string => c0 ← b.1 df; Ok (values c0, VStr b.2))
         (map (fun r => (str_contains r.1 (col c), r.2)) rules)
    = Ok (map (fun r => (map (contains_value r.1) (values s), VStr r.2)) rules)).
  { clear Hne. induction rules as [| r rules IH]; simpl; [reflexivity |].
    rewrite (str_contains_col _ _ _ _ Hcol Hty). simpl. rewrite IH. reflexivity. }
  rewrite Hconds. simpl. rewrite when_rows_first_match by exact Hne. reflexivity.
Qed.

Lemma when_then_otherwise_first_err (p l : string) (rules : list (string * string))
    (otherwise c : string) (df : DataFrame) (e : PyError) :
  str_contains p (col c) df = Err e ->
  when_then_otherwise (map (fun r => (str_contains r.1 (col c), r.2)) ((p, l) :: rules))
    otherwise df = Err e.
Proof.
  intros Herr. unfold when_then_otherwise. simpl. rewrite Herr. reflexivity.
Qed.

(** What the classification expression evaluates to, on every frame. *)
Lemma major_category_eval (df : DataFrame) :
  major_category df
  = match column "Category Name" df with
    | None => Err (ColumnNotFoundError "Category Name")
    | Some s =>
        match dtype s with
        | Utf8 => Ok (mkSeries "Major_Category" Utf8 (map classify (values s)))
        | _ => Err (SchemaError (name s))
        end
    end.
Proof.
  unfold major_category, alias.
  destruct (column "Category Name" df) as [s |] eqn:Hcol.
  - destruct (dtype s) eqn:Hty;
      try (unfold CATEGORY_RULES;
           rewrite (when_then_otherwise_first_err _ _ _ _ _ _ (SchemaError (name s)));
           [reflexivity | unfold str_contains, col; rewrite Hcol; simpl; rewrite Hty; reflexivity]).
    rewrite (when_then_otherwise_rules _ _ _ _ _ Hcol Hty) by discriminate.
    reflexivity.
  - unfold CATEGORY_RULES.
    rewrite (when_then_otherwise_first_err _ _ _ _ _ _ (ColumnNotFoundError "Category Name"));
      [reflexivity | unfold str_contains, col; rewrite Hcol; reflexivity].
Qed.

(** The classification stage on a frame: one column put in place. *)
Lemma classification_frame (df out : DataFrame) :
  with_columns_frame [ major_category ] df = Ok out ->
  exists s, column "Category Name" df = Some s /\ dtype s = Utf8 /\
            out = with_column (mkSeries "Major_Category" Utf8 (map classify (values s))) df.
Proof.
  unfold with_columns_frame. simpl. rewrite major_category_eval.
  destruct (column "Category Name" df) as [s |]; [| discriminate].
  destruct (dtype s) eqn:Hty; try discriminate.
  simpl. intros [= <-]. exists s. split; [reflexivity | split; [exact Hty | reflexivity]].
Qed.

Lemma column_clear_rows (c : string) (df : DataFrame) :
  column c (clear_rows df)
  = (fun s => mkSeries (name s) (dtype s) []) <$> column c df.
Proof.
  unfold column, clear_rows. induction df as [| s df IH]; simpl; [reflexivity |].
  unfold has_name at 1 3. simpl. destruct (String.eqb (name s) c); [reflexivity | exact IH].
Qed.

(** The classification stage on a scanned file, whatever the file. *)
Lemma df_with_categories_scan (file : DataFrame) :
  collect (df_with_categories (scan_parquet file))
  = match column "Category Name" file with
    | None => Err (ColumnNotFoundError "Category Name")
    | Some s =>
        match dtype s with
        | Utf8 => Ok (with_column (mkSeries "Major_Category" Utf8 (map classify (values s))) file)
        | _ => Err (SchemaError (name s))
        end
    end.
Proof.
  unfold collect, df_with_categories, with_columns, then_do. simpl.
  unfold with_columns_frame. simpl. rewrite !major_category_eval, column_clear_rows.
  destruct (column "Category Name" file) as [s |]; simpl; [| reflexivity].
  destruct (dtype s); reflexivity.
Qed.

(** C1.  The classifier is first-match-wins over the ordered rules.  On the
    five sample cells the pipeline writes WHISKEY, LIQUEURS & CORDIALS,
    UNCATEGORIZED, UNCATEGORIZED, VODKA.  On every file with a text column
    "Category Name" the new column is [classify] of each cell, and
    [classify] is the label of the first rule whose pattern occurs in the
    cell, the fallback when none does; so a cell that matches a rule and a
    later one gets the label of the earlier, and a null cell gets
    UNCATEGORIZED. *)
Theorem classifier_first_match_wins :
  collect (df_with_categories (scan_parquet category_sample))
  = Ok (category_sample ++ [ mkSeries "Major_Category" Utf8 category_sample_labels ])
  /\ (forall (file : DataFrame) (s : Series),
        column "Category Name" file = Some s -> dtype s = Utf8 ->
        collect (df_with_categories (scan_parquet file))
        = Ok (with_column (mkSeries "Major_Category" Utf8 (map classify (values s))) file))
  /\ (forall v : value,
        classify v = match List.find (fun r => matches r.1 v) CATEGORY_RULES with
                     | Some r => VStr r.2
                     | None => VStr "UNCATEGORIZED"
                     end)
  /\ (forall (pre post : list (string * string)) (pattern label : string)
             (later : string * string) (v : value),
        CATEGORY_RULES = pre ++ (pattern, label) :: post ->
        later ∈ post ->
        (forall r, r ∈ pre -> matches r.1 v = false) ->
        matches pattern v = true ->
        matches later.1 v = true ->
        classify v = VStr label)
  /\ classify Null = VStr "UNCATEGORIZED".
Proof.
  split; [vm_compute; reflexivity |].
  split.
  { intros file s Hcol Hty. rewrite df_with_categories_scan, Hcol, Hty. reflexivity. }
  split; [intros v; apply first_match_find |].
  split; [| reflexivity].
  intros pre post pattern label later v Hrules _ Hpre Hhit _.
  unfold classify. rewrite Hrules. apply first_match_earlier; assumption.
Qed.

(** A cell naming both whiskey and cocktail: the WHISKEY rule stands before
    the READY-TO-DRINK rule. *)
Lemma classifier_first_match_wins_witness :
  matches "(?i)WHISKEY|WHISKIES|WHISKY|BOURBON|SCOTCH" (VStr "Whiskey Cocktail") = true
  /\ matches "(?i)COCKTAIL|RTD" (VStr "Whiskey Cocktail") = true
  /\ classify (VStr "Whiskey Cocktail") = VStr "WHISKEY".
Proof.
  split; [reflexivity |]. split; [reflexivity |].
  destruct classifier_first_match_wins as (_ & _ & _ & Hearlier & _).
  apply (Hearlier [] (tail CATEGORY_RULES)
           "(?i)WHISKEY|WHISKIES|WHISKY|BOURBON|SCOTCH" "WHISKEY"
           ("(?i)COCKTAIL|RTD", "READY-TO-DRINK")).
  - reflexivity.
  - vm_compute. do 8 right. left.
  - intros r Hr. inversion Hr.
  - reflexivity.
  - reflexivity.
Defined.

(** C10, as the claim states it, fails on a frame that already has a
    "Major_Category" column: the stage overwrites it. *)
Lemma classification_overwrites_existing_column :
  cell relabelled "Major_Category" 0 = Some (VStr "HAND LABEL")
  /\ collect (df_with_categories (scan_parquet relabelled))
     = Ok [ mkSeries "Category Name" Utf8 [ VStr "Premium Vodka" ];
            mkSeries "Major_Category" Utf8 [ VStr "VODKA" ] ].
Proof. split; vm_compute; reflexivity. Qed.

(** C10, amended.  Whenever the classified query collects, the query it was
    built on collects to a frame with a text column "Category Name", and
    the result is that frame with the column "Major_Category" put in place:
    every column of another name is the column it was; when the frame had
    no "Major_Category" the result is the frame followed by the one new
    column, with the same number of rows. *)
Theorem classification_frame_effect (q : LazyFrame) (out : DataFrame) :
  collect (df_with_categories q) = Ok out ->
  exists (src : DataFrame) (s : Series),
    collect q = Ok src
    /\ column "Category Name" src = Some s /\ dtype s = Utf8
    /\ column "Major_Category" out
       = Some (mkSeries "Major_Category" Utf8 (map classify (values s)))
    /\ length (map classify (values s)) = length (values s)
    /\ (forall c, c <> "Major_Category" -> column c out = column c src)
    /\ (mem "Major_Category" (columns src) = false ->
        out = src ++ [ mkSeries "Major_Category" Utf8 (map classify (values s)) ]
        /\ height out = height src).
Proof.
  intros Hc. apply collect_then_do in Hc as (src & Hsrc & Hstage).
  apply classification_frame in Hstage as (s & Hcol & Hty & ->).
  exists src, s. split; [exact Hsrc |]. split; [exact Hcol |]. split; [exact Hty |].
  split; [rewrite column_with_column; reflexivity |].
  split; [apply List.length_map |].
  split.
  - intros c Hne. rewrite column_with_column. cbn [name].
    destruct (String.eqb_spec "Major_Category" c); [congruence | reflexivity].
  - intros Hfresh. unfold with_column. simpl name.
    rewrite existsb_has_name, Hfresh. split; [reflexivity |].
    destruct src as [| s0 src]; [discriminate | reflexivity].
Qed.

Lemma classification_frame_effect_witness :
  exists s : Series,
    column "Category Name" category_sample = Some s
    /\ column "Major_Category"
         (category_sample ++ [ mkSeries "Major_Category" Utf8 category_sample_labels ])
       = Some (mkSeries "Major_Category" Utf8 (map classify (values s))).
Proof.
  destruct (classification_frame_effect (scan_parquet category_sample)
              (category_sample ++ [ mkSeries "Major_Category" Utf8 category_sample_labels ]))
    as (src & s & Hsrc & Hcol & _ & Hnew & _).
  - vm_compute. reflexivity.
  - injection Hsrc as <-. exists s. split; assumption.
Defined.

(** ** Dropping columns *)

Lemma filter_true {A} (f : A -> bool) (l : list A) :
  (forall a, a ∈ l -> f a = true) -> List.filter f l = l.
Proof.
  induction l as [| a l IH]; intros Hf; simpl; [reflexivity |].
  rewrite Hf by left. rewrite IH; [reflexivity |].
  intros b Hb. apply Hf. right. exact Hb.
Qed.

Lemma filter_false {A} (f : A -> bool) (l : list A) :
  (forall a, a ∈ l -> f a = false) -> List.filter f l = [].
Proof.
  induction l as [| a l IH]; intros Hf; simpl; [reflexivity |].
  rewrite Hf by left. apply IH. intros b Hb. apply Hf. right. exact Hb.
Qed.

Lemma filter_ext_in {A} (f g : A -> bool) (l : list A) :
  (forall a, a ∈ l -> f a = g a) -> List.filter f l = List.filter g l.
Proof.
  induction l as [| a l IH]; intros Hfg; simpl; [reflexivity |].
  rewrite Hfg by left. rewrite IH; [reflexivity |].
  intros b Hb. apply Hfg. right. exact Hb.
Qed.

Lemma elem_of_filter {A} (f : A -> bool) (l : list A) (a : A) :
  a ∈ List.filter f l <-> a ∈ l /\ f a = true.
Proof.
  rewrite !list_elem_of_In. apply List.filter_In.
Qed.

Lemma elem_of_present (sch names : list string) (c : string) :
  c ∈ present sch names <-> c ∈ names /\ c ∈ sch.
Proof.
  unfold present. rewrite elem_of_filter, mem_true. reflexivity.
Qed.

Lemma elem_of_columns (df : DataFrame) (s : Series) : s ∈ df -> name s ∈ columns df.
Proof.
  intros Hs. unfold columns. apply list_elem_of_In, List.in_map, list_elem_of_In, Hs.
Qed.

Lemma columns_filter (f : string -> bool) (df : DataFrame) :
  columns (List.filter (fun s => f (name s)) df) = List.filter f (columns df).
Proof.
  unfold columns. induction df as [| s df IH]; simpl; [reflexivity |].
  destruct (f (name s)); simpl; rewrite IH; reflexivity.
Qed.

(** Dropping the names of a plan that are columns never fails, and removes
    the columns the plan names. *)
Lemma drop_frame_present (names : list string) (df : DataFrame) :
  drop_frame (present (columns df) names) df
  = Ok (List.filter (fun s => negb (mem (name s) names)) df).
Proof.
  unfold drop_frame.
  destruct (List.find _ (present (columns df) names)) as [c |] eqn:Hfind.
  - apply List.find_some in Hfind as [Hin Habsent].
    apply list_elem_of_In, elem_of_present in Hin as [_ Hin].
    apply mem_true in Hin. rewrite Hin in Habsent. discriminate.
  - f_equal. apply filter_ext_in. intros s Hs. f_equal.
    apply elem_of_columns in Hs.
    destruct (mem (name s) names) eqn:Hm.
    + apply mem_true. apply elem_of_present. split; [apply mem_true; exact Hm | exact Hs].
    + apply mem_false. intros Hp. apply elem_of_present in Hp as [Hp _].
      apply mem_true in Hp. congruence.
Qed.

Lemma filter_clear_rows (f : string -> bool) (df : DataFrame) :
  List.filter (fun s => f (name s)) (clear_rows df)
  = clear_rows (List.filter (fun s => f (name s)) df).
Proof.
  unfold clear_rows. induction df as [| s df IH]; simpl; [reflexivity |].
  destruct (f (name s)); simpl; rewrite IH; reflexivity.
Qed.

Lemma present_after_drop (names : list string) (sch : list string) :
  present (List.filter (fun c => negb (mem c names)) sch) names = [].
Proof.
  unfold present. apply filter_false. intros c Hc.
  apply mem_false. intros Hin. apply elem_of_filter in Hin as [_ Hin].
  apply mem_true in Hc. rewrite Hc in Hin. discriminate.
Qed.

Lemma drop_frame_nil (df : DataFrame) : drop_frame [] df = Ok df.
Proof.
  unfold drop_frame. simpl. f_equal. apply filter_true. reflexivity.
Qed.

Lemma lazy_drop_nil (q : LazyFrame) :
  collect (q |> lazy_drop []) = collect q
  /\ collect_schema (q |> lazy_drop []) = collect_schema q.
Proof.
  unfold collect, collect_schema, lazy_drop, then_do. cbn [plan source].
  destruct (plan q (clear_rows (source q))) as [m0 | e];
    rewrite ?bind_of_Ok, ?bind_of_Err; [| split; reflexivity].
  rewrite drop_frame_nil, !bind_of_Ok. split; [| reflexivity].
  destruct (plan q (source q)) as [m | e];
    rewrite ?bind_of_Ok, ?bind_of_Err; [apply drop_frame_nil | reflexivity].
Qed.

(** C9.  Applying a drop plan to a scanned file never fails and leaves the
    columns the plan does not name; applying the same plan to the result is
    again no error and changes neither the schema nor the rows; and a plan
    none of whose names is a column leaves the file as it is. *)
Theorem drop_plan_idempotent (file : DataFrame) (to_drop : list string) :
  exists q1 q2 : LazyFrame,
    apply_drop_plan to_drop (scan_parquet file) = Ok q1
    /\ apply_drop_plan to_drop q1 = Ok q2
    /\ collect_schema q1 = Ok (List.filter (fun c => negb (mem c to_drop)) (columns file))
    /\ collect_schema q2 = collect_schema q1
    /\ collect q1 = Ok (List.filter (fun s => negb (mem (name s) to_drop)) file)
    /\ collect q2 = collect q1
    /\ ((forall c, c ∈ to_drop -> c ∉ columns file) -> collect q1 = Ok file).
Proof.
  set (q1 := scan_parquet file |> lazy_drop (present (columns file) to_drop)).
  assert (Hplan0 : plan q1 (clear_rows file)
                   = Ok (clear_rows (List.filter (fun s => negb (mem (name s) to_drop)) file))).
  { unfold q1, lazy_drop, then_do. simpl.
    rewrite <- (columns_clear_rows file), drop_frame_present.
    rewrite (filter_clear_rows (fun c => negb (mem c to_drop))). reflexivity. }
  assert (Hplan : plan q1 file
                  = Ok (List.filter (fun s => negb (mem (name s) to_drop)) file)).
  { unfold q1, lazy_drop, then_do. simpl. apply drop_frame_present. }
  assert (Hsch : collect_schema q1
                 = Ok (List.filter (fun c => negb (mem c to_drop)) (columns file))).
  { unfold collect_schema. change (source q1) with file. rewrite Hplan0. simpl.
    rewrite columns_clear_rows.
    rewrite (columns_filter (fun c => negb (mem c to_drop))). reflexivity. }
  assert (Hcol : collect q1 = Ok (List.filter (fun s => negb (mem (name s) to_drop)) file)).
  { unfold collect. change (source q1) with file. rewrite Hplan0. simpl. exact Hplan. }
  exists q1, (q1 |> lazy_drop []).
  split; [unfold apply_drop_plan; rewrite collect_schema_scan; reflexivity |].
  split; [unfold apply_drop_plan; rewrite Hsch; simpl; rewrite present_after_drop; reflexivity |].
  split; [exact Hsch |].
  split; [apply lazy_drop_nil |].
  split; [exact Hcol |].
  split; [apply lazy_drop_nil |].
  intros Habsent. rewrite Hcol. f_equal. apply filter_true.
  intros s Hs. apply negb_true_iff, mem_false. intros Hin.
  apply (Habsent _ Hin). apply elem_of_columns. exact Hs.
Qed.

(** ** The drop plan *)

Lemma columns_head_frame (n : Z) (df : DataFrame) : columns (head_frame n df) = columns df.
Proof.
  unfold columns, head_frame. rewrite List.map_map. reflexivity.
Qed.

Lemma elem_of_over_threshold (d : list (string * float)) (c : string) :
  c ∈ over_threshold d
  <-> exists p, (c, p) ∈ d /\ PrimFloat.leb MISSING_VALUE_THRESHOLD p = true.
Proof.
  unfold over_threshold. rewrite list_elem_of_fmap. split.
  - intros ([c' p] & -> & Hin). apply elem_of_filter in Hin as [Hin Hle].
    exists p. split; assumption.
  - intros (p & Hin & Hle). exists (c, p). split; [reflexivity |].
    apply elem_of_filter. split; assumption.
Qed.

Lemma elem_of_all_columns_to_drop (to_drop : list string) (c : string) :
  c ∈ all_columns_to_drop to_drop <-> c ∈ to_drop \/ c ∈ ADDITIONAL_DROPS.
Proof.
  unfold all_columns_to_drop.
  rewrite elem_of_elements, elem_of_list_to_set, elem_of_app. reflexivity.
Qed.

(** C5.  On every scanned file with a column, the names handed to [drop]
    are exactly the columns whose proportion of nulls in the sample (the
    first 2,000,000 rows) is at least 0.10, together with the names of the
    exclusion list that are columns of the file; the other names of the
    exclusion list are left out without an error.  In a sample of 1,000
    rows a column null in 150 rows is dropped and one null in 50 rows is
    not. *)
Theorem drop_plan_membership :
  (forall file : DataFrame,
      match columns_dropped (scan_parquet file) with
      | Ok dropped =>
          forall c : string,
            c ∈ dropped
            <-> (exists s, s ∈ head_frame 2000000 file /\ name s = c /\
                           PrimFloat.leb MISSING_VALUE_THRESHOLD
                             (null_proportion (head_frame 2000000 file) s) = true)
                \/ (c ∈ ADDITIONAL_DROPS /\ c ∈ columns file)
      | Err _ => file = []
      end)
  /\ MISSING_VALUE_THRESHOLD = 0.1%float
  /\ height null_sample = 1000%nat
  /\ (exists x, column "X" null_sample = Some x /\ null_count x = 150)
  /\ (exists y, column "Y" null_sample = Some y /\ null_count y = 50)
  /\ (exists dropped, columns_dropped (scan_parquet null_sample) = Ok dropped
                       /\ "X" ∈ dropped /\ "Y" ∉ dropped).
Proof.
  split.
  - intros file. unfold columns_dropped, columns_to_drop.
    rewrite collect_head_scan, collect_schema_scan.
    destruct file as [| s0 file]; [reflexivity |].
    set (sample := head_frame 2000000 (s0 :: file)).
    change (head_frame 2000000 (s0 :: file)) with sample.
    assert (Hprops : missing_value_proportions sample
                     = Ok (map (fun s => (name s, null_proportion sample s)) sample))
      by reflexivity.
    rewrite bind_of_Ok, Hprops, !bind_of_Ok.
    assert (Hcols : forall s, s ∈ sample -> name s ∈ columns (s0 :: file)).
    { intros s Hs. rewrite <- (columns_head_frame 2000000). apply elem_of_columns, Hs. }
    intros c. rewrite elem_of_present, elem_of_all_columns_to_drop, elem_of_over_threshold.
    split.
    + intros [[(p & Hin & Hle) | Hadd] Hsch]; [left | right; split; assumption].
      apply list_elem_of_In, List.in_map_iff in Hin as (s & Heq & Hs).
      injection Heq as Hname Hp. subst p.
      exists s. split; [apply list_elem_of_In, Hs | split; assumption].
    + intros [(s & Hs & Hname & Hle) | [Hadd Hsch]]; [| split; [right |]; assumption].
      subst c. split; [| apply Hcols, Hs]. left.
      exists (null_proportion sample s). split; [| exact Hle].
      apply list_elem_of_In, List.in_map_iff. exists s.
      split; [reflexivity | apply list_elem_of_In, Hs].
  - split; [reflexivity |]. split; [reflexivity |].
    split; [eexists; split; [reflexivity | vm_compute; reflexivity] |].
    split; [eexists; split; [reflexivity | vm_compute; reflexivity] |].
    eexists. split; [vm_compute; reflexivity |].
    split; [apply mem_true | apply mem_false]; reflexivity.
Qed.

(** ** The size estimate *)

(** C6.  A file of 50,000 rows is sampled whole (400,000 bytes under the
    reference engine), yet the cell divides by the constant 100,000: it
    reports 200,000 bytes, half the size of the sample itself, where the
    specified estimate is 400,000.  With no row the estimate is zero. *)
Theorem size_estimate_small_file :
  (forall (E : Engine) (file : DataFrame),
      size_estimate (scan_parquet file)
      = Ok (Z.of_nat (height file), Z.of_nat (length (columns file)),
            estimated_total_bytes (estimated_size (head_frame 100000 file))
                                  (Z.of_nat (height file))))
  /\ collect (scan_parquet small_file |> lazy_head 100000) = Ok small_file
  /\ estimated_size small_file = 400000
  /\ size_estimate (scan_parquet small_file) = Ok (50000, 1, 200000%float)
  /\ spec_estimated_bytes 400000 100000 50000 = 400000%float
  /\ size_estimate (scan_parquet (clear_rows small_file)) = Ok (0, 1, 0%float).
Proof.
  split.
  - intros E file. unfold size_estimate.
    rewrite collect_scan, collect_schema_scan, collect_head_scan. reflexivity.
  - repeat split; vm_compute; reflexivity.
Qed.

(** ** The weekend flag *)

(** The calendar on known days: 1 January 1970 was a Thursday, 29 February
    2024 a Thursday, 31 December 1999 a Friday, 1 January 2022 a
    Saturday; and the two conversions agree on them. *)
Example calendar_known_days :
  Calendar.weekday 0 = 4
  /\ Calendar.civil_from_days 19782 = (2024, 2, 29) /\ Calendar.weekday 19782 = 4
  /\ Calendar.days_from_civil 1999 12 31 = 10956 /\ Calendar.weekday 10956 = 5
  /\ Calendar.civil_from_days 10956 = (1999, 12, 31)
  /\ Calendar.days_from_civil 2022 1 1 = 18993 /\ Calendar.weekday 18993 = 6
  /\ Calendar.civil_from_days (-1) = (1969, 12, 31) /\ Calendar.weekday (-1) = 3.
Proof. repeat split; reflexivity. Qed.

Lemma weekday_range (days : Z) : 1 <= Calendar.weekday days <= 7.
Proof.
  unfold Calendar.weekday. pose proof (Z.mod_pos_bound (days + 3) 7). lia.
Qed.

(** C3.  7 January 2022 was a Friday: the cleaned frame gives it weekday 5
    (Monday is 1) and [is_weekend] true.  For every date the flag is true
    exactly on the weekdays 5, 6 and 7. *)
Theorem is_weekend_on_friday :
  (out ← cleaned (one_sale (VStr "01/07/2022") (VInt 3));
   Ok (cell out "Date" 0, cell out "Weekday" 0, cell out "is_weekend" 0))
  = Ok (Some (VDate 18999), Some (VInt 5), Some (VBool true))
  /\ Calendar.civil_from_days 18999 = (2022, 1, 7)
  /\ Calendar.weekday 18999 = 5
  /\ (forall days : Z,
        ge_value 5 (date_field Calendar.weekday (VDate days)) = VBool true
        <-> Calendar.weekday days = 5 \/ Calendar.weekday days = 6
            \/ Calendar.weekday days = 7).
Proof.
  split; [vm_compute; reflexivity |].
  split; [reflexivity |]. split; [reflexivity |].
  intros days. simpl. pose proof (weekday_range days) as Hr.
  destruct (5 <=? Calendar.weekday days) eqn:Hle.
  - apply Z.leb_le in Hle. split; [lia | reflexivity].
  - apply Z.leb_gt in Hle. split; [discriminate | lia].
Qed.

(** ** Casting and parsing *)

(** C2, as the claim states it, fails: a bottle count that does not fit
    Int16 and a date that is not month/day/year each stop the collection
    with an error; no frame, and so no row, comes back. *)
Lemma strict_cast_aborts :
  cast_value Int16 (VInt 40000) = None
  /\ cleaned (one_sale (VStr "01/07/2022") (VInt 40000))
     = Err (InvalidOperationError "Bottles Sold")
  /\ strptime_date "%m/%d/%Y" "2022-01-07" = None
  /\ cleaned (one_sale (VStr "2022-01-07") (VInt 3))
     = Err (InvalidOperationError "Date").
Proof. repeat split; vm_compute; reflexivity. Qed.

(** C4, as the claim states it, fails: on a file without a "Date" column
    the cleaning query is assembled without an error; the missing column is
    reported when the query is collected. *)
Lemma missing_column_is_deferred :
  mem "Date" (columns one_sale_undated) = false
  /\ exists q : LazyFrame,
       df_cleaned (scan_parquet one_sale_undated) ADDITIONAL_DROPS = Ok q
       /\ collect q = Err (ColumnNotFoundError "Date").
Proof.
  split; [reflexivity |].
  unfold df_cleaned. rewrite collect_schema_scan, bind_of_Ok.
  eexists. split; [reflexivity |]. vm_compute. reflexivity.
Qed.

(** *** What the steps of the cleaning pipeline return *)

(** Decides the comparisons of two written-out names in the goal. *)
Ltac eqb_names :=
  repeat
    match goal with
    | |- context [String.eqb ?a ?b] =>
        let v := eval vm_compute in (String.eqb a b) in
        match v with
        | true => idtac
        | false => idtac
        end;
        change (String.eqb a b) with v
    end;
  cbv beta iota.

Section CleaningFacts.
Context `{Engine}.

Lemma on_failure_strict (c : string) (r : option value) (v : value) :
  on_failure true c r = Ok v <-> r = Some v.
Proof.
  unfold on_failure. destruct r as [v' |]; split; intros Heq; congruence.
Qed.

Lemma cast_series_strict (dt : DataType) (s r : Series) :
  cast_series dt true s = Ok r ->
  r = mkSeries (name s) dt (values r)
  /\ Forall2 (fun v v' => cast_value dt v = Some v') (values s) (values r).
Proof.
  unfold cast_series. intros Hc. ok_inv Hc. subst r. simpl. split; [reflexivity |].
  apply mapR_Forall2 in E. eapply Forall2_impl; [exact E |].
  intros v v' Hv. apply on_failure_strict in Hv. exact Hv.
Qed.

Lemma cast_col_Ok (dt : DataType) (c : string) (df : DataFrame) (r : Series) :
  cast dt (col c) df = Ok r ->
  exists s, column c df = Some s
            /\ r = mkSeries c dt (values r)
            /\ Forall2 (fun v v' => cast_value dt v = Some v') (values s) (values r).
Proof.
  unfold cast, cast_with, col. intros Hc.
  destruct (column c df) as [s |] eqn:Hcol; [| discriminate].
  rewrite bind_of_Ok in Hc. apply cast_series_strict in Hc as [Hr Hvs].
  exists s. rewrite (column_name _ _ _ Hcol) in Hr. repeat split; assumption.
Qed.

Lemma alias_Ok (n : string) (e : Expr) (df : DataFrame) (r : Series) :
  alias n e df = Ok r -> exists s, e df = Ok s /\ r = mkSeries n (dtype s) (values s).
Proof.
  unfold alias. intros Ha. ok_inv Ha. eauto.
Qed.

Lemma parse_date_Ok (df : DataFrame) (r : Series) :
  alias "Date" (str_strptime "%m/%d/%Y" (col "Date")) df = Ok r ->
  exists s, column "Date" df = Some s
            /\ r = mkSeries "Date" Date (values r)
            /\ Forall2 (fun v v' => parse_date_value "%m/%d/%Y" v = Some v')
                       (values s) (values r).
Proof.
  intros Ha. apply alias_Ok in Ha as (p & Hp & ->).
  unfold str_strptime, str_strptime_with, col in Hp.
  destruct (column "Date" df) as [s |] eqn:Hcol; [| discriminate].
  rewrite bind_of_Ok in Hp. unfold strptime_series in Hp.
  destruct (dtype s); try discriminate.
  ok_inv Hp. subst p. simpl. exists s. split; [reflexivity |]. split; [reflexivity |].
  apply mapR_Forall2 in E. eapply Forall2_impl; [exact E |].
  intros v v' Hv. apply on_failure_strict in Hv. exact Hv.
Qed.

(** The columns after [with_columns]: the last new column of a name, or
    else the column the frame had. *)
Lemma with_columns_frame_column (exprs : list Expr) (df out : DataFrame) :
  with_columns_frame exprs df = Ok out ->
  exists news, mapR (fun e => e df) exprs = Ok news
               /\ forall c, column c out
                            = match List.find (has_name c) (rev news) with
                              | Some s => Some s
                              | None => column c df
                              end.
Proof.
  unfold with_columns_frame. intros Hw. ok_inv Hw. subst out.
  exists r. split; [assumption |]. intros c. apply column_foldl_with_column.
Qed.

Lemma find_has_name_None (c : string) (news : list Series) :
  (forall r, r ∈ news -> name r <> c) -> List.find (has_name c) (rev news) = None.
Proof.
  intros Hall. destruct (List.find (has_name c) (rev news)) as [r |] eqn:Hfind; [| reflexivity].
  apply List.find_some in Hfind as [Hin Hname]. apply has_name_true in Hname.
  apply List.in_rev, list_elem_of_In in Hin. exfalso. exact (Hall r Hin Hname).
Qed.

Lemma cast_columns_names (dt : DataType) (names : list string) (df : DataFrame)
    (news : list Series) :
  mapR (fun e : Expr => e df) (map (fun c => cast dt (col c)) names) = Ok news ->
  forall r, r ∈ news -> name r ∈ names.
Proof.
  revert news. induction names as [| c names IH]; simpl; intros news Hm r Hr.
  - injection Hm as <-. inversion Hr.
  - ok_inv Hm. subst news. apply cast_col_Ok in E as (s & _ & Hr0 & _).
    apply elem_of_cons in Hr as [-> | Hr].
    + rewrite Hr0. left.
    + right. eapply IH; eassumption.
Qed.

Lemma cast_string_columns_names (sch : list string) (df : DataFrame) (news : list Series) :
  mapR (fun e : Expr => e df) (cast_string_columns sch) = Ok news ->
  forall r, r ∈ news -> name r ∈ STRING_COLUMNS.
Proof.
  unfold cast_string_columns. intros Hm r Hr.
  apply (cast_columns_names _ _ _ _ Hm) in Hr.
  apply elem_of_present in Hr as [Hr _]. exact Hr.
Qed.

Lemma column_filter_names (names : list string) (df : DataFrame) (c : string) :
  column c (List.filter (fun s => negb (mem (name s) names)) df)
  = if mem c names then None else column c df.
Proof.
  unfold column. induction df as [| s df IH]; simpl.
  - destruct (mem c names); reflexivity.
  - destruct (mem (name s) names) eqn:Hm; simpl.
    + rewrite IH. unfold has_name. destruct (String.eqb_spec (name s) c) as [<- | Hne].
      * rewrite Hm. reflexivity.
      * reflexivity.
    + unfold has_name at 1 3. destruct (String.eqb_spec (name s) c) as [<- | Hne].
      * rewrite Hm. reflexivity.
      * exact IH.
Qed.

Lemma drop_step (names : list string) (src f1 : DataFrame) :
  drop_frame names src = Ok f1 ->
  forall c, column c f1 = if mem c names then None else column c src.
Proof.
  unfold drop_frame. destruct (List.find _ names); [discriminate |].
  intros [= <-] c. apply column_filter_names.
Qed.

Lemma numeric_step (f1 f2 : DataFrame) :
  with_columns_frame cast_numeric_columns f1 = Ok f2 ->
  (forall c dt, (c, dt) ∈ NUMERIC_COLUMNS ->
     exists s r, column c f1 = Some s /\ column c f2 = Some r
                 /\ Forall2 (fun v v' => cast_value dt v = Some v') (values s) (values r))
  /\ (forall c, c ∉ NUMERIC_COLUMNS.*1 -> column c f2 = column c f1).
Proof.
  intros Hw. apply with_columns_frame_column in Hw as (news & Hnews & Hcol).
  unfold cast_numeric_columns, NUMERIC_COLUMNS in Hnews. cbn [map fst snd] in Hnews.
  apply mapR_cons_Ok in Hnews as (r & ? & E & Hnews & ->).
  apply mapR_cons_Ok in Hnews as (r0 & ? & E0 & Hnews & ->).
  apply mapR_cons_Ok in Hnews as (r1 & ? & E1 & Hnews & ->).
  apply mapR_cons_Ok in Hnews as (r2 & ? & E2 & Hnews & ->).
  apply mapR_nil_Ok in Hnews as ->.
  apply cast_col_Ok in E as (s1 & Hs1 & Hr1 & Hv1).
  apply cast_col_Ok in E0 as (s2 & Hs2 & Hr2 & Hv2).
  apply cast_col_Ok in E1 as (s3 & Hs3 & Hr3 & Hv3).
  apply cast_col_Ok in E2 as (s4 & Hs4 & Hr4 & Hv4).
  assert (Hn1 : name r = "Bottles Sold") by (rewrite Hr1; reflexivity).
  assert (Hn2 : name r0 = "Sale (Dollars)") by (rewrite Hr2; reflexivity).
  assert (Hn3 : name r1 = "Volume Sold (Liters)") by (rewrite Hr3; reflexivity).
  assert (Hn4 : name r2 = "Volume Sold (Gallons)") by (rewrite Hr4; reflexivity).
  assert (Hfind : forall c, List.find (has_name c) (rev [r; r0; r1; r2])
                            = if String.eqb "Volume Sold (Gallons)" c then Some r2
                              else if String.eqb "Volume Sold (Liters)" c then Some r1
                              else if String.eqb "Sale (Dollars)" c then Some r0
                              else if String.eqb "Bottles Sold" c then Some r
                              else None).
  { intros c. cbn [rev app List.find]. unfold has_name. rewrite Hn1, Hn2, Hn3, Hn4.
    reflexivity. }
  split.
  - intros c dt Hin. unfold NUMERIC_COLUMNS in Hin.
    rewrite !elem_of_cons, elem_of_nil in Hin.
    destruct Hin as [Heq | [Heq | [Heq | [Heq | []]]]]; injection Heq as -> ->;
      rewrite Hcol, Hfind; eqb_names; eauto.
  - intros c Hc. rewrite Hcol, Hfind.
    assert (Hne : forall x, x ∈ NUMERIC_COLUMNS.*1 -> String.eqb x c = false).
    { intros x Hx. apply String.eqb_neq. intros ->. exact (Hc Hx). }
    rewrite !Hne; [reflexivity | ..]; apply mem_true; reflexivity.
Qed.

Lemma string_step (sch : list string) (f2 f3 : DataFrame) :
  with_columns_frame (cast_string_columns sch) f2 = Ok f3 ->
  forall c, c ∉ STRING_COLUMNS -> column c f3 = column c f2.
Proof.
  intros Hw c Hc. apply with_columns_frame_column in Hw as (news & Hnews & Hcol).
  rewrite Hcol, find_has_name_None; [reflexivity |].
  intros r Hr Hname. apply Hc. rewrite <- Hname.
  eapply cast_string_columns_names; eassumption.
Qed.

Lemma date_step (f3 f4 : DataFrame) :
  with_columns_frame parse_date f3 = Ok f4 ->
  (exists s r, column "Date" f3 = Some s /\ column "Date" f4 = Some r
               /\ Forall2 (fun v v' => parse_date_value "%m/%d/%Y" v = Some v')
                          (values s) (values r))
  /\ (forall c, c <> "Date" -> column c f4 = column c f3).
Proof.
  intros Hw. apply with_columns_frame_column in Hw as (news & Hnews & Hcol).
  unfold parse_date in Hnews.
  apply mapR_cons_Ok in Hnews as (r & ? & E & Hnews & ->).
  apply mapR_nil_Ok in Hnews as ->.
  apply parse_date_Ok in E as (s & Hs & Hr & Hvs).
  assert (Hn : name r = "Date") by (rewrite Hr; reflexivity).
  split.
  - exists s, r. split; [exact Hs |]. split; [| exact Hvs].
    rewrite Hcol. cbn [rev app List.find]. unfold has_name. rewrite Hn. reflexivity.
  - intros c Hc. rewrite Hcol. cbn [rev app List.find]. unfold has_name. rewrite Hn.
    apply not_eq_sym, String.eqb_neq in Hc. rewrite Hc. reflexivity.
Qed.

Lemma temporal_step (f4 out : DataFrame) :
  with_columns_frame temporal_features f4 = Ok out ->
  forall c, c ∉ TEMPORAL_COLUMNS -> column c out = column c f4.
Proof.
  intros Hw c Hc. apply with_columns_frame_column in Hw as (news & Hnews & Hcol).
  rewrite Hcol, find_has_name_None; [reflexivity |].
  unfold temporal_features in Hnews.
  apply mapR_cons_Ok in Hnews as (r & ? & E & Hnews & ->).
  apply mapR_cons_Ok in Hnews as (r0 & ? & E0 & Hnews & ->).
  apply mapR_cons_Ok in Hnews as (r1 & ? & E1 & Hnews & ->).
  apply mapR_cons_Ok in Hnews as (r2 & ? & E2 & Hnews & ->).
  apply mapR_cons_Ok in Hnews as (r3 & ? & E3 & Hnews & ->).
  apply mapR_nil_Ok in Hnews as ->.
  apply alias_Ok in E as (? & _ & ->), E0 as (? & _ & ->), E1 as (? & _ & ->),
                    E2 as (? & _ & ->), E3 as (? & _ & ->).
  intros t Ht Hname. apply Hc. rewrite <- Hname.
  rewrite !elem_of_cons, elem_of_nil in Ht.
  destruct Ht as [-> | [-> | [-> | [-> | [-> | []]]]]]; apply mem_true; reflexivity.
Qed.

End CleaningFacts.

Lemma cast_value_null (E : Engine) (dt : DataType) (v v' : value) :
  cast_value dt v = Some v' -> (v' = Null <-> v = Null).
Proof.
  destruct v; simpl; try (intros [= <-]; tauto);
    destruct dt; simpl; intros Hc;
    repeat match type of Hc with
           | (_ <$> ?m) = Some _ => destruct m; simpl in Hc
           | (?m ≫= _) = Some _ => destruct m; simpl in Hc
           | (if ?b then _ else _) = Some _ => destruct b
           end;
    try discriminate; injection Hc as <-; split; discriminate.
Qed.

Lemma parse_date_value_null (E : Engine) (fmt : string) (v v' : value) :
  parse_date_value fmt v = Some v' -> (v' = Null <-> v = Null).
Proof.
  destruct v; simpl; try discriminate; try (intros [= <-]; tauto).
  destruct (strptime_date fmt s); simpl; [| discriminate].
  intros [= <-]. split; discriminate.
Qed.

Lemma cell_Forall2 {P : value -> value -> Prop} (src out : DataFrame) (c : string)
    (s r : Series) (i : nat) (v : value) :
  column c src = Some s -> column c out = Some r ->
  Forall2 P (values s) (values r) ->
  cell src c i = Some v -> exists v', P v v' /\ cell out c i = Some v'.
Proof.
  intros Hs Hr Hall. unfold cell. rewrite Hs, Hr. simpl. intros Hv.
  destruct (Forall2_lookup_l _ _ _ _ _ Hall Hv) as (v' & Hv' & HP). eauto.
Qed.

(** C2, amended.  The casts and the date parse are strict, Polars'
    default.  Whenever the cleaning query collects, every cell of a numeric
    column is the cast of the source cell and every "Date" cell is the
    parse of the source text, null exactly where the source cell is null:
    no cell is nulled because it failed.  So a cell that cannot be cast or
    parsed leaves no frame at all: the collection ends in an error. *)
Theorem strict_casts_never_null (E : Engine) (lf q : LazyFrame) (to_drop : list string)
    (out : DataFrame) :
  df_cleaned lf to_drop = Ok q ->
  collect q = Ok out ->
  exists src : DataFrame,
    collect lf = Ok src
    /\ (forall c dt i v,
          (c, dt) ∈ NUMERIC_COLUMNS -> cell src c i = Some v ->
          exists v', cast_value dt v = Some v' /\ cell out c i = Some v'
                     /\ (v' = Null <-> v = Null))
    /\ (forall i v,
          cell src "Date" i = Some v ->
          exists v', parse_date_value "%m/%d/%Y" v = Some v' /\ cell out "Date" i = Some v'
                     /\ (v' = Null <-> v = Null)).
Proof.
  unfold df_cleaned. intros Hq Hout.
  apply bind_Ok in Hq as (sch & _ & Hq). injection Hq as <-.
  apply collect_then_do in Hout as (f4 & Hout & Htemporal).
  apply collect_then_do in Hout as (f3 & Hout & Hdate).
  apply collect_then_do in Hout as (f2 & Hout & Hstring).
  apply collect_then_do in Hout as (f1 & Hout & Hnumeric).
  apply collect_then_do in Hout as (src & Hsrc & Hdrop).
  exists src. split; [exact Hsrc |].
  pose proof (drop_step _ _ _ Hdrop) as Hc1.
  destruct (numeric_step _ _ Hnumeric) as [Hnum Hc2].
  pose proof (string_step _ _ _ Hstring) as Hc3.
  destruct (date_step _ _ Hdate) as [(sd & rd & Hsd & Hrd & Hparsed) Hc4].
  pose proof (temporal_step _ _ Htemporal) as Hc5.
  split.
  - intros c dt i v Hin Hcell.
    destruct (Hnum c dt Hin) as (s & r & Hs & Hr & Hcast).
    assert (Hnames : (c ∉ STRING_COLUMNS) /\ c <> "Date" /\ (c ∉ TEMPORAL_COLUMNS)).
    { unfold NUMERIC_COLUMNS in Hin. rewrite !elem_of_cons, elem_of_nil in Hin.
      destruct Hin as [Heq | [Heq | [Heq | [Heq | []]]]]; injection Heq as -> ->;
        (split; [apply mem_false; reflexivity
                | split; [discriminate | apply mem_false; reflexivity]]). }
    destruct Hnames as (Hnot_string & Hnot_date & Hnot_temporal).
    assert (Hsrc_col : column c src = Some s).
    { rewrite Hc1 in Hs. destruct (mem c _); [discriminate | exact Hs]. }
    assert (Hout_col : column c out = Some r).
    { rewrite Hc5, Hc4, Hc3 by assumption. exact Hr. }
    destruct (cell_Forall2 _ _ _ _ _ _ _ Hsrc_col Hout_col Hcast Hcell) as (v' & Hv' & Hcell').
    exists v'. split; [exact Hv' |]. split; [exact Hcell' |].
    eapply cast_value_null. exact Hv'.
  - intros i v Hcell.
    assert (Hsrc_col : column "Date" src = Some sd).
    { rewrite Hc3, Hc2, Hc1 in Hsd by (apply mem_false; reflexivity).
      destruct (mem "Date" _); [discriminate | exact Hsd]. }
    assert (Hout_col : column "Date" out = Some rd).
    { rewrite Hc5 by (apply mem_false; reflexivity). exact Hrd. }
    destruct (cell_Forall2 _ _ _ _ _ _ _ Hsrc_col Hout_col Hparsed Hcell)
      as (v' & Hv' & Hcell').
    exists v'. split; [exact Hv' |]. split; [exact Hcell' |].
    eapply parse_date_value_null. exact Hv'.
Qed.

Lemma strict_casts_never_null_witness :
  exists (q : LazyFrame) (out : DataFrame) (v' : value),
    df_cleaned (scan_parquet (one_sale (VStr "01/07/2022") (VInt 3))) ADDITIONAL_DROPS = Ok q
    /\ collect q = Ok out
    /\ cast_value Int16 (VInt 3) = Some v'
    /\ cell out "Bottles Sold" 0 = Some v'.
Proof.
  assert (Hq : exists q,
             df_cleaned (scan_parquet (one_sale (VStr "01/07/2022") (VInt 3))) ADDITIONAL_DROPS
             = Ok q /\ exists out, collect q = Ok out).
  { unfold df_cleaned. rewrite collect_schema_scan, bind_of_Ok.
    eexists. split; [reflexivity |]. eexists. vm_compute. reflexivity. }
  destruct Hq as (q & Hq & out & Hout).
  destruct (strict_casts_never_null _ _ _ _ _ Hq Hout) as (src & Hsrc & Hnum & _).
  rewrite collect_scan in Hsrc. injection Hsrc as <-.
  destruct (Hnum "Bottles Sold" Int16 0%nat (VInt 3)) as (v' & Hv & Hcell & _).
  - apply list_elem_of_In. left. reflexivity.
  - reflexivity.
  - exists q, out, v'. repeat split; assumption.
Defined.

(** *** Resolving the cleaning plan on the schema *)

Section SchemaResolution.
Context `{Engine}.

Lemma no_rows_clear_rows (df : DataFrame) : no_rows (clear_rows df).
Proof.
  intros s Hs. unfold clear_rows in Hs.
  apply list_elem_of_In, List.in_map_iff in Hs as (t & <- & _). reflexivity.
Qed.

Lemma no_rows_filter (f : Series -> bool) (df : DataFrame) :
  no_rows df -> no_rows (List.filter f df).
Proof.
  intros Hdf s Hs. apply elem_of_filter in Hs as [Hs _]. exact (Hdf s Hs).
Qed.

Lemma column_elem_of (c : string) (df : DataFrame) (s : Series) :
  column c df = Some s -> s ∈ df.
Proof.
  unfold column. intros Hfind. apply List.find_some in Hfind as [Hin _].
  apply list_elem_of_In. exact Hin.
Qed.

Lemma cast_col_no_rows (dt : DataType) (c : string) (df : DataFrame) :
  no_rows df ->
  cast dt (col c) df = if mem c (columns df) then Ok (mkSeries c dt [])
                       else Err (ColumnNotFoundError c).
Proof.
  intros Hdf. unfold cast, cast_with, col.
  destruct (column c df) as [s |] eqn:Hcol.
  - rewrite (column_Some_mem _ _ _ Hcol), bind_of_Ok. unfold cast_series.
    rewrite (Hdf s (column_elem_of _ _ _ Hcol)), (column_name _ _ _ Hcol). reflexivity.
  - apply column_None in Hcol. rewrite Hcol. reflexivity.
Qed.

Lemma columns_with_column_present (s : Series) (df : DataFrame) :
  mem (name s) (columns df) = true -> columns (with_column s df) = columns df.
Proof.
  intros Hm. unfold with_column. rewrite existsb_has_name, Hm.
  unfold columns. rewrite List.map_map. apply List.map_ext.
  intros t. destruct (has_name (name s) t) eqn:Ht; [| reflexivity].
  apply has_name_true in Ht. symmetry. exact Ht.
Qed.

Lemma no_rows_with_column (s : Series) (df : DataFrame) :
  values s = [] -> no_rows df -> no_rows (with_column s df).
Proof.
  intros Hs Hdf t Ht. unfold with_column in Ht.
  destruct (existsb (has_name (name s)) df).
  - apply list_elem_of_In, List.in_map_iff in Ht as (u & <- & Hu).
    destruct (has_name (name s) u); [exact Hs | apply Hdf, list_elem_of_In, Hu].
  - apply elem_of_app in Ht as [Ht | Ht]; [exact (Hdf t Ht) |].
    apply list_elem_of_singleton in Ht as ->. exact Hs.
Qed.

Lemma foldl_with_column_present (news : list Series) (df : DataFrame) :
  (forall s, s ∈ news -> mem (name s) (columns df) = true /\ values s = []) ->
  no_rows df ->
  columns (foldl (fun acc s => with_column s acc) df news) = columns df
  /\ no_rows (foldl (fun acc s => with_column s acc) df news).
Proof.
  revert df. induction news as [| s news IH]; intros df Hnews Hdf; simpl; [split; auto |].
  destruct (Hnews s) as [Hm Hs]; [left |].
  destruct (IH (with_column s df)) as [Hcols Hrows].
  - intros t Ht. rewrite columns_with_column_present by exact Hm.
    apply Hnews. right. exact Ht.
  - apply no_rows_with_column; assumption.
  - rewrite Hcols, columns_with_column_present by exact Hm. split; [reflexivity | exact Hrows].
Qed.

(** A [with_columns] of casts, on a frame without rows: the first column
    that is absent is reported; if none is, the frame keeps its columns. *)
Lemma casts_step_no_rows {A} (f : A -> string) (g : A -> DataType) (l : list A)
    (df : DataFrame) :
  no_rows df ->
  (exists a, a ∈ l /\ mem (f a) (columns df) = false
             /\ with_columns_frame (map (fun a => cast (g a) (col (f a))) l) df
                = Err (ColumnNotFoundError (f a)))
  \/ (exists out, with_columns_frame (map (fun a => cast (g a) (col (f a))) l) df = Ok out
                  /\ columns out = columns df /\ no_rows out
                  /\ forall a, a ∈ l -> mem (f a) (columns df) = true).
Proof.
  intros Hdf. unfold with_columns_frame.
  assert (Hmap :
    (exists a, a ∈ l /\ mem (f a) (columns df) = false
               /\ mapR (fun e : Expr => e df) (map (fun a => cast (g a) (col (f a))) l)
                  = Err (ColumnNotFoundError (f a)))
    \/ (mapR (fun e : Expr => e df) (map (fun a => cast (g a) (col (f a))) l)
        = Ok (map (fun a => mkSeries (f a) (g a) []) l)
        /\ forall a, a ∈ l -> mem (f a) (columns df) = true)).
  { induction l as [| a l IH]; simpl.
    - right. split; [reflexivity |]. intros a Ha. inversion Ha.
    - rewrite (cast_col_no_rows _ _ _ Hdf).
      destruct (mem (f a) (columns df)) eqn:Hm.
      + rewrite bind_of_Ok. destruct IH as [(b & Hb & Hmb & Herr) | [Hok Hall]].
        * left. exists b. split; [right; exact Hb |]. split; [exact Hmb |].
          rewrite Herr. reflexivity.
        * right. rewrite Hok. split; [reflexivity |].
          intros b Hb. apply elem_of_cons in Hb as [-> | Hb]; [exact Hm | exact (Hall b Hb)].
      + left. exists a. split; [left |]. split; [exact Hm | reflexivity]. }
  destruct Hmap as [(a & Ha & Hm & Herr) | [Hok Hall]].
  - left. exists a. rewrite Herr. repeat split; assumption.
  - right. rewrite Hok, bind_of_Ok. eexists. split; [reflexivity |].
    destruct (foldl_with_column_present (map (fun a => mkSeries (f a) (g a) []) l) df)
      as [Hcols Hrows]; [| exact Hdf | repeat split; assumption].
    intros s Hs. apply list_elem_of_In, List.in_map_iff in Hs as (a & <- & Ha).
    split; [apply Hall, list_elem_of_In, Ha | reflexivity].
Qed.

End SchemaResolution.

(** ** Sorting *)

(** The rank orders floats as the float comparison does, on a few values;
    NaN, which compares with nothing, ranks above the infinity. *)
Example f64_rank_order :
  (f64_rank 300 <? f64_rank 500) = PrimFloat.ltb 300 500
  /\ (f64_rank (-0.5) <? f64_rank 5e-324) = PrimFloat.ltb (-0.5) 5e-324
  /\ (f64_rank 0.1 <? f64_rank 0.30000000000000004) = PrimFloat.ltb 0.1 0.30000000000000004
  /\ (f64_rank 1e308 <? f64_rank infinity) = PrimFloat.ltb 1e308 infinity
  /\ (f64_rank 0 =? f64_rank (-0)) = PrimFloat.eqb 0 (-0)
  /\ (f64_rank infinity <? f64_rank nan) = true.
Proof. repeat split; vm_compute; reflexivity. Qed.

Section Sorting.
Context {A : Type} (le : A -> A -> bool).
Hypothesis le_total : forall a b, le a b = true \/ le b a = true.

Local Abbreviation ordered := (fun a b => le a b = true).

Lemma elem_of_insert_by (x y : A) (l : list A) :
  y ∈ insert_by le x l <-> y = x \/ y ∈ l.
Proof.
  induction l as [| z l IH]; simpl.
  - rewrite list_elem_of_singleton, elem_of_nil. tauto.
  - destruct (le x z).
    + rewrite elem_of_cons. reflexivity.
    + rewrite !elem_of_cons, IH. tauto.
Qed.

Lemma elem_of_sort_by (y : A) (l : list A) : y ∈ sort_by le l <-> y ∈ l.
Proof.
  unfold sort_by. induction l as [| x l IH]; simpl; [reflexivity |].
  rewrite elem_of_insert_by, elem_of_cons, IH. reflexivity.
Qed.

Lemma HdRel_insert_by (a x : A) (l : list A) :
  le a x = true -> HdRel ordered a l -> HdRel ordered a (insert_by le x l).
Proof.
  intros Hax Hhd. destruct l as [| z l]; simpl.
  - constructor. exact Hax.
  - destruct (le x z); constructor; [exact Hax |].
    inversion Hhd; assumption.
Qed.

Lemma Sorted_insert_by (x : A) (l : list A) :
  Sorted ordered l -> Sorted ordered (insert_by le x l).
Proof.
  induction 1 as [| z l Hsorted IH Hhd]; simpl.
  - repeat constructor.
  - destruct (le x z) eqn:Hxz.
    + constructor; [constructor; assumption | constructor; exact Hxz].
    + constructor; [exact IH |].
      apply HdRel_insert_by; [| exact Hhd].
      destruct (le_total z x) as [Hzx | Hzx]; [exact Hzx | congruence].
Qed.

Lemma Sorted_sort_by (l : list A) : Sorted ordered (sort_by le l).
Proof.
  unfold sort_by. induction l as [| x l IH]; simpl; [constructor |].
  apply Sorted_insert_by. exact IH.
Qed.

Lemma insert_by_Permutation (x : A) (l : list A) : insert_by le x l ≡ₚ x :: l.
Proof.
  induction l as [| z l IH]; simpl; [reflexivity |].
  destruct (le x z); [reflexivity |].
  rewrite IH. apply perm_swap.
Qed.

Lemma sort_by_Permutation (l : list A) : sort_by le l ≡ₚ l.
Proof.
  unfold sort_by. induction l as [| x l IH]; simpl; [reflexivity |].
  rewrite insert_by_Permutation, IH. reflexivity.
Qed.

End Sorting.

Lemma Sorted_map {A B} (R : B -> B -> Prop) (f : A -> B) (l : list A) :
  Sorted (fun a b => R (f a) (f b)) l -> Sorted R (map f l).
Proof.
  induction 1 as [| a l Hsorted IH Hhd]; simpl; constructor; [exact IH |].
  destruct Hhd; simpl; constructor. assumption.
Qed.


Lemma before_total (descending : bool) (a b : value) :
  before descending a b = true \/ before descending b a = true.
Proof.
  unfold before.
  destruct a, b; auto;
    destruct descending; rewrite !Z.leb_le; lia.
Qed.

(** The row numbers of a sorted column: each is a row of the column, and
    the cells they point at stand in order. *)
Lemma zip_seq_lookup (vs : list value) (k : nat) (v : value) (i : nat) :
  (v, i) ∈ zip vs (seq k (length vs)) -> exists j, i = (k + j)%nat /\ vs !! j = Some v.
Proof.
  revert k. induction vs as [| x vs IH]; intros k; simpl; [intros Hin; inversion Hin |].
  rewrite elem_of_cons. intros [[= -> ->] | Hin].
  - exists 0%nat. split; [lia | reflexivity].
  - apply IH in Hin as (j & -> & Hj). exists (S j). split; [lia | exact Hj].
Qed.

Lemma sorted_rows_gather (descending : bool) (vs : list value) :
  gather (sorted_rows descending vs) vs
  = map fst (sort_by (fun a b => before descending a.1 b.1) (zip vs (seq 0 (length vs)))).
Proof.
  unfold gather, sorted_rows. rewrite List.map_map. apply List.map_ext_in.
  intros [v i] Hin. simpl.
  apply list_elem_of_In, elem_of_sort_by, zip_seq_lookup in Hin as (j & -> & Hj).
  simpl. rewrite Hj. reflexivity.
Qed.

Lemma Sorted_gather (descending : bool) (vs : list value) :
  Sorted (fun a b => before descending a b = true) (gather (sorted_rows descending vs) vs).
Proof.
  rewrite sorted_rows_gather. apply Sorted_map.
  apply (Sorted_sort_by (fun a b : value * nat => before descending a.1 b.1)).
  intros a b. apply before_total.
Qed.


Lemma first_n_take {A} (n : Z) (l : list A) : first_n n l = take (Z.to_nat n) l.
Proof.
  revert n. induction l as [| x l IH]; intros n; simpl.
  - destruct (Z.to_nat n); reflexivity.
  - destruct (n <=? 0) eqn:Hn.
    + apply Z.leb_le in Hn. replace (Z.to_nat n) with 0%nat by lia. reflexivity.
    + apply Z.leb_gt in Hn. replace (Z.to_nat n) with (S (Z.to_nat (n - 1))) by lia.
      simpl. rewrite IH. reflexivity.
Qed.

Lemma before_trans (descending : bool) (a b c : value) :
  before descending a b = true -> before descending b c = true ->
  before descending a c = true.
Proof.
  unfold before.
  destruct a, b, c; intros Hab Hbc; try reflexivity; try discriminate;
    destruct descending; rewrite ?Z.leb_le in *; lia.
Qed.

(** In a sorted column no cell is followed, however far down, by one that
    should stand before it. *)
Lemma Sorted_lookup_lt (descending : bool) (l : list value) (i j : nat) (a b : value) :
  Sorted (fun a b => before descending a b = true) l ->
  (i < j)%nat -> l !! i = Some a -> l !! j = Some b -> before descending a b = true.
Proof.
  intros Hsorted. apply Sorted_StronglySorted in Hsorted;
    [| intros x y z; apply before_trans].
  revert i j. induction Hsorted as [| x l Hs IH Hall]; intros i j Hij Ha Hb; [discriminate |].
  destruct j as [| j]; [lia |]. simpl in Hb.
  destruct i as [| i]; simpl in Ha.
  - injection Ha as ->. rewrite Forall_forall in Hall. apply Hall.
    eapply list_elem_of_lookup_2. exact Hb.
  - apply (IH i j); [lia | assumption..].
Qed.

Lemma map_lookup {A B} (f : A -> B) (l : list A) (i : nat) : map f l !! i = f <$> l !! i.
Proof.
  revert i. induction l as [| a l IH]; intros [| i]; simpl; auto.
Qed.

Lemma gather_seq (vs : list value) : gather (seq 0 (length vs)) vs = vs.
Proof.
  apply list_eq. intros i. unfold gather. rewrite map_lookup.
  destruct (vs !! i) as [v |] eqn:Hv.
  - rewrite lookup_seq_lt by (eapply lookup_lt_Some; exact Hv). simpl. rewrite Hv. reflexivity.
  - rewrite lookup_seq_ge by (apply lookup_ge_None; exact Hv). reflexivity.
Qed.

(** Gathering the cells of a mapped column is mapping the gathered cells,
    when every row number is a row of the column. *)
Lemma gather_map (f : value -> value) (rows : list nat) (gs : list value) :
  (forall i, i ∈ rows -> (i < length gs)%nat) ->
  gather rows (map f gs) = map f (gather rows gs).
Proof.
  intros Hrange. unfold gather. rewrite List.map_map. apply List.map_ext_in.
  intros i Hi. apply list_elem_of_In, Hrange in Hi.
  destruct (lookup_lt_is_Some_2 gs i Hi) as [g Hg].
  rewrite map_lookup, Hg. reflexivity.
Qed.

(** ** Grouped aggregation *)

Lemma column_cons (c : string) (s : Series) (df : DataFrame) :
  column c (s :: df) = if String.eqb (name s) c then Some s else column c df.
Proof. reflexivity. Qed.

Lemma elem_of_distinct (v : value) (l : list value) : v ∈ distinct l -> v ∈ l.
Proof.
  induction l as [| x l IH]; simpl; [auto |].
  rewrite !elem_of_cons. intros [-> | Hin]; [left; reflexivity | right].
  apply elem_of_filter in Hin as [Hin _]. exact (IH Hin).
Qed.

Lemma col_Ok (c : string) (df : DataFrame) (s : Series) :
  col c df = Ok s <-> column c df = Some s.
Proof.
  unfold col. destruct (column c df); split; congruence.
Qed.

Lemma value_eqb_refl (v : value) : value_eqb v v = true.
Proof.
  destruct v; simpl; try reflexivity.
  - apply Z.eqb_refl.
  - apply Z.eqb_refl.
  - apply String.eqb_refl.
  - apply Z.eqb_refl.
  - destruct b; reflexivity.
Qed.

Lemma NoDup_filter_list {A} (f : A -> bool) (l : list A) :
  NoDup l -> NoDup (List.filter f l).
Proof.
  induction 1 as [| x l Hx Hl IH]; simpl; [constructor |].
  destruct (f x); [| exact IH].
  apply NoDup_cons. split; [| exact IH].
  rewrite elem_of_filter. tauto.
Qed.

Lemma NoDup_distinct (l : list value) : NoDup (distinct l).
Proof.
  induction l as [| v l IH]; simpl; [constructor |].
  apply NoDup_cons. split.
  - intros Hin. apply elem_of_filter in Hin as [_ Hne].
    rewrite value_eqb_refl in Hne. discriminate.
  - apply NoDup_filter_list. exact IH.
Qed.



Lemma column_map_values (F : Series -> list value) (c : string) (df : DataFrame) :
  column c (map (fun s => mkSeries (name s) (dtype s) (F s)) df)
  = (fun s => mkSeries (name s) (dtype s) (F s)) <$> column c df.
Proof.
  unfold column. induction df as [| s df IH]; simpl; [reflexivity |].
  unfold has_name at 1 3. simpl. destruct (String.eqb (name s) c); [reflexivity | exact IH].
Qed.



(** *** What the orders of an executor give *)

Section ExecutorFacts.
Context `{Executor}.

Lemma elem_of_group_order (keys : list value) (g : value) :
  g ∈ group_order keys <-> g ∈ distinct keys.
Proof. rewrite (group_order_distinct keys). reflexivity. Qed.

Lemma NoDup_group_order (keys : list value) : NoDup (group_order keys).
Proof. rewrite (group_order_distinct keys). apply NoDup_distinct. Qed.

Lemma length_group_order (keys : list value) :
  length (group_order keys) = length (distinct keys).
Proof. apply Permutation_length, group_order_distinct. Qed.

Lemma row_order_in_range (descending : bool) (vs : list value) (i : nat) :
  i ∈ row_order descending vs -> (i < length vs)%nat.
Proof.
  rewrite (row_order_rows descending vs). intros Hi.
  apply list_elem_of_lookup in Hi as [j Hj]. apply lookup_seq in Hj. lia.
Qed.

(** The rows of a frame sorted by one of its columns are the rows of the
    frame, in another order. *)
Lemma gather_row_order (descending : bool) (vs ws : list value) :
  length ws = length vs -> gather (row_order descending vs) ws ≡ₚ ws.
Proof.
  intros Hlen. rewrite <- (gather_seq ws) at 2. rewrite Hlen.
  apply Permutation_map, row_order_rows.
Qed.

(** The first [n] rows of a sorted frame of groups [gs] with measures
    [f g]: they are [n] of the groups, or all if there are fewer, each
    once and with its measure; the measures stand in order; and a group
    that is left out would stand after every row that is kept. *)
Lemma top_rows (descending : bool) (n : Z) (f : value -> value) (gs : list value) :
  0 <= n -> NoDup gs ->
  let rows := row_order descending (map f gs) in
  let kept := first_n n (gather rows gs) in
  first_n n (gather rows (map f gs)) = map f kept
  /\ Z.of_nat (length kept) = Z.min n (Z.of_nat (length gs))
  /\ NoDup kept
  /\ (forall g, g ∈ kept -> g ∈ gs)
  /\ (forall i j a b,
        (i < j)%nat -> map f kept !! i = Some a -> map f kept !! j = Some b ->
        before descending a b = true)
  /\ (forall g, g ∈ gs -> g ∉ kept ->
        forall t, t ∈ map f kept -> before descending t (f g) = true).
Proof.
  intros Hn Hnodup rows kept.
  assert (Hlen : length gs = length (map f gs)) by (rewrite List.length_map; reflexivity).
  assert (Hgather : gather rows (map f gs) = map f (gather rows gs)).
  { apply gather_map. intros i Hi. rewrite Hlen. exact (row_order_in_range _ _ _ Hi). }
  assert (Hperm : gather rows gs ≡ₚ gs) by (apply gather_row_order; exact Hlen).
  assert (Hsorted : Sorted (fun a b => before descending a b = true)
                           (map f (gather rows gs))).
  { rewrite <- Hgather. apply row_order_sorted. }
  assert (Hall : NoDup (gather rows gs)) by (rewrite Hperm; exact Hnodup).
  unfold kept. rewrite !first_n_take, Hgather, firstn_map.
  set (all := gather rows gs) in *.
  split; [reflexivity |].
  split; [rewrite length_take, (Permutation_length Hperm); lia |].
  split.
  { apply NoDup_alt. intros i j x Hi Hj.
    apply lookup_take_Some in Hi as [Hi _], Hj as [Hj _].
    exact (proj1 (NoDup_alt all) Hall i j x Hi Hj). }
  split.
  { intros g Hg. apply elem_of_take in Hg as (i & Hi & _).
    rewrite <- Hperm. eapply list_elem_of_lookup_2. exact Hi. }
  split.
  { intros i j a b Hij Ha Hb. rewrite <- firstn_map in Ha, Hb.
    apply lookup_take_Some in Ha as [Ha _], Hb as [Hb _].
    exact (Sorted_lookup_lt _ _ _ _ _ _ Hsorted Hij Ha Hb). }
  intros g Hg Hout t Ht.
  rewrite <- Hperm in Hg. apply list_elem_of_lookup in Hg as [p Hp].
  destruct (decide (p < Z.to_nat n)%nat) as [Hlt | Hge].
  { exfalso. apply Hout, elem_of_take. eauto. }
  rewrite <- firstn_map in Ht. apply elem_of_take in Ht as (i & Hi & Hin).
  apply (Sorted_lookup_lt _ _ i p _ _ Hsorted); [lia | exact Hi |].
  rewrite map_lookup, Hp. reflexivity.
Qed.

End ExecutorFacts.
(** *** The reference executor *)

Lemma snd_zip_seq (vs : list value) (k : nat) :
  map snd (zip vs (seq k (length vs))) = seq k (length vs).
Proof.
  revert k. induction vs as [| v vs IH]; intros k; simpl; [reflexivity |].
  rewrite IH. reflexivity.
Qed.

Lemma sorted_rows_Permutation (descending : bool) (vs : list value) :
  sorted_rows descending vs ≡ₚ seq 0 (length vs).
Proof.
  unfold sorted_rows. rewrite <- (snd_zip_seq vs 0) at 2.
  apply Permutation_map, sort_by_Permutation.
Qed.

(** The executor that adds from left to right, keeps the groups in the
    order of their first row and sorts stably. *)
Definition reference_executor : Executor := {|
  float_sum := left_to_right_sum;
  group_order := distinct;
  group_order_distinct := fun keys => Permutation_refl (distinct keys);
  row_order := sorted_rows;
  row_order_rows := sorted_rows_Permutation;
  row_order_sorted := Sorted_gather
|}.

(** *** What the steps of a ranked query return *)

Section RankingFacts.
Context `{Executor}.


(** The sum of one group, as the aggregation computes it on the rows of
    the group. *)
Lemma group_sum_row (key measure total : string) (src : DataFrame) (k m : Series) (g : value) :
  column key src = Some k -> column measure src = Some m -> dtype m = Float64 ->
  (sub ← group_rows key g src; select [ alias total (sum (col measure)) ] sub)
  = Ok [ mkSeries total Float64 [ VFloat (group_total k m g) ] ].
Proof.
  intros Hk Hm Hty. unfold group_rows. rewrite (proj2 (col_Ok _ _ _) Hk), !bind_of_Ok.
  unfold select. cbn [mapR]. unfold alias, sum, col at 1.
  rewrite column_map_values, Hm. cbn [fmap option_fmap option_map].
  rewrite !bind_of_Ok. cbn [dtype]. rewrite Hty, !bind_of_Ok. reflexivity.
Qed.

(** The grouped sums: the key column in the order of the executor, and
    beside each key the total of its group. *)
Lemma group_by_sum_frame (key measure total : string) (src : DataFrame) (k m : Series) :
  column key src = Some k -> column measure src = Some m -> dtype m = Float64 ->
  group_by_frame key [ alias total (sum (col measure)) ] src
  = Ok [ mkSeries key (dtype k) (group_order (values k));
         mkSeries total Float64
           (map (fun g => VFloat (group_total k m g)) (group_order (values k))) ].
Proof.
  intros Hk Hm Hty. unfold group_by_frame.
  rewrite (proj2 (col_Ok _ _ _) Hk), bind_of_Ok.
  assert (Hshape : select [ alias total (sum (col measure)) ] (clear_rows src)
                   = Ok [ mkSeries total Float64 [ VFloat (sum_f64 []) ] ]).
  { unfold select. cbn [mapR]. unfold alias, sum, col.
    rewrite column_clear_rows, Hm. cbn [fmap option_fmap option_map].
    rewrite !bind_of_Ok. cbn [dtype]. rewrite Hty. reflexivity. }
  rewrite Hshape, bind_of_Ok.
  rewrite (mapR_ext _ (fun g => Ok [ mkSeries total Float64 [ VFloat (group_total k m g) ] ]))
    by (intros g _; apply group_sum_row; assumption).
  rewrite mapR_map, bind_of_Ok. cbn [imap name dtype]. rewrite List.map_map. reflexivity.
Qed.

Lemma sort_frame_numeric (by_ : string) (descending : bool) (df : DataFrame) (s : Series) :
  column by_ df = Some s -> is_numeric (dtype s) = true ->
  sort_frame by_ descending df
  = Ok (map (fun c => mkSeries (name c) (dtype c)
                        (gather (row_order descending (values s)) (values c))) df).
Proof.
  intros Hs Hty. unfold sort_frame. rewrite (proj2 (col_Ok _ _ _) Hs), bind_of_Ok, Hty.
  reflexivity.
Qed.

(** The three steps of a ranked query on a frame with the key column and a
    Float64 measure. *)
Lemma ranked_frame (key measure total : string) (n : Z) (descending : bool)
    (src : DataFrame) (k m : Series) :
  key <> total ->
  column key src = Some k -> column measure src = Some m -> dtype m = Float64 ->
  let gs := group_order (values k) in
  let ts := map (fun g => VFloat (group_total k m g)) gs in
  let rows := row_order descending ts in
  ((group_by_frame key [ alias total (sum (col measure)) ] src
    ≫= sort_frame total descending)
   ≫= fun df => Ok (head_frame n df))
  = Ok [ mkSeries key (dtype k) (first_n n (gather rows gs));
         mkSeries total Float64 (first_n n (gather rows ts)) ].
Proof.
  intros Hne Hk Hm Hty gs ts rows.
  rewrite (group_by_sum_frame _ _ _ _ _ _ Hk Hm Hty), bind_of_Ok.
  fold gs. fold ts.
  rewrite (sort_frame_numeric total descending _ (mkSeries total Float64 ts)).
  - reflexivity.
  - rewrite !column_cons. cbn [name]. apply String.eqb_neq in Hne. rewrite Hne.
    rewrite String.eqb_refl. reflexivity.
  - reflexivity.
Qed.

(** A ranked query on a query that collects: its result is the result of
    the three steps on the collected frame. *)
Lemma group_top_n_collected (key measure total : string) (n : Z) (descending : bool)
    (q : LazyFrame) (src out : DataFrame) :
  collect q = Ok src ->
  group_top_n key measure total n descending q = Ok out ->
  ((group_by_frame key [ alias total (sum (col measure)) ] src
    ≫= sort_frame total descending)
   ≫= fun df => Ok (head_frame n df))
  = Ok out.
Proof.
  intros Hsrc Htop. unfold group_top_n, group_top_n_query in Htop.
  apply collect_then_do in Htop as (sorted & Htop & Hhead).
  apply collect_then_do in Htop as (grouped & Htop & Hsort).
  apply collect_then_do in Htop as (src' & Hsrc' & Hgroup).
  rewrite Hsrc in Hsrc'. injection Hsrc' as <-.
  rewrite Hgroup, bind_of_Ok, Hsort, bind_of_Ok. exact Hhead.
Qed.

(** A ranked query on a scanned file that has the key column and a Float64
    measure returns. *)
Lemma group_top_n_scan (key measure total : string) (n : Z) (descending : bool)
    (file : DataFrame) (k m : Series) :
  key <> total ->
  column key file = Some k -> column measure file = Some m -> dtype m = Float64 ->
  exists out, group_top_n key measure total n descending (scan_parquet file) = Ok out.
Proof.
  intros Hne Hk Hm Hty.
  unfold group_top_n, group_top_n_query, collect, lazy_head, sort, group_by, then_do,
    scan_parquet.
  cbn [plan source]. rewrite !bind_of_Ok.
  rewrite (ranked_frame key measure total n descending (clear_rows file)
             (mkSeries (name k) (dtype k) []) (mkSeries (name m) (dtype m) []) Hne);
    [| rewrite column_clear_rows, Hk; reflexivity
     | rewrite column_clear_rows, Hm; reflexivity
     | exact Hty ].
  rewrite bind_of_Ok.
  rewrite (ranked_frame key measure total n descending file k m Hne Hk Hm Hty).
  eexists. reflexivity.
Qed.

End RankingFacts.

(** C7.  A ranked aggregation of a query that collects to a frame with the
    key column and a Float64 measure.  Whatever order the executor gives
    the groups and the rows that tie, and however it adds floats: the
    result has the key column and the column of totals; it has [n] rows,
    or one for each group if there are fewer; no total is followed by one
    that the order asked for puts before it; its keys are groups of the
    frame, each once, each beside the sum of the measure over the rows of
    that group; and a group that is left out would not stand before any
    row that is returned.  With three groups of sums A: 300, B: 500,
    C: 500 and [n = 2], descending, the result is the groups B and C, in
    one order or the other, each with 500.  On a scanned file with the two
    columns the ranked aggregation returns. *)
Theorem group_top_n_ranked (X : Executor) :
  (forall (key measure total : string) (n : Z) (descending : bool) (q : LazyFrame)
          (src out : DataFrame) (k m : Series),
      key <> total -> 0 <= n ->
      collect q = Ok src ->
      column key src = Some k -> column measure src = Some m -> dtype m = Float64 ->
      group_top_n key measure total n descending q = Ok out ->
      exists gs ts : list value,
        out = [ mkSeries key (dtype k) gs; mkSeries total Float64 ts ]
        /\ length ts = length gs
        /\ Z.of_nat (length gs) = Z.min n (Z.of_nat (length (distinct (values k))))
        /\ (forall i j a b,
              (i < j)%nat -> ts !! i = Some a -> ts !! j = Some b ->
              before descending a b = true)
        /\ NoDup gs
        /\ (forall j g,
              gs !! j = Some g ->
              g ∈ values k /\ ts !! j = Some (VFloat (group_total k m g)))
        /\ (forall g,
              g ∈ distinct (values k) -> g ∉ gs ->
              forall t, t ∈ ts -> before descending t (VFloat (group_total k m g)) = true))
  /\ (forall (q : LazyFrame) (src out : DataFrame) (k m : Series),
        collect q = Ok src ->
        column "Group" src = Some k -> column "Amount" src = Some m -> dtype m = Float64 ->
        distinct (values k) ≡ₚ [ VStr "A"; VStr "B"; VStr "C" ] ->
        group_total k m (VStr "A") = 300%float ->
        group_total k m (VStr "B") = 500%float ->
        group_total k m (VStr "C") = 500%float ->
        group_top_n "Group" "Amount" "Total" 2 true q = Ok out ->
        exists g0 g1 : value,
          out = [ mkSeries "Group" (dtype k) [ g0; g1 ];
                  mkSeries "Total" Float64 [ VFloat 500; VFloat 500 ] ]
          /\ (g0 = VStr "B" /\ g1 = VStr "C" \/ g0 = VStr "C" /\ g1 = VStr "B"))
  /\ (forall (key measure total : string) (n : Z) (descending : bool)
             (file : DataFrame) (k m : Series),
        key <> total -> 0 <= n ->
        column key file = Some k -> column measure file = Some m -> dtype m = Float64 ->
        exists out, group_top_n key measure total n descending (scan_parquet file) = Ok out).
Proof.
  assert (Hranked : forall (key measure total : string) (n : Z) (descending : bool)
                           (q : LazyFrame) (src out : DataFrame) (k m : Series),
      key <> total -> 0 <= n ->
      collect q = Ok src ->
      column key src = Some k -> column measure src = Some m -> dtype m = Float64 ->
      group_top_n key measure total n descending q = Ok out ->
      exists gs : list value,
        out = [ mkSeries key (dtype k) gs;
                mkSeries total Float64 (map (fun g => VFloat (group_total k m g)) gs) ]
        /\ Z.of_nat (length gs) = Z.min n (Z.of_nat (length (distinct (values k))))
        /\ NoDup gs
        /\ (forall g, g ∈ gs -> g ∈ distinct (values k))
        /\ (forall i j a b,
              (i < j)%nat ->
              map (fun g => VFloat (group_total k m g)) gs !! i = Some a ->
              map (fun g => VFloat (group_total k m g)) gs !! j = Some b ->
              before descending a b = true)
        /\ (forall g,
              g ∈ distinct (values k) -> g ∉ gs ->
              forall t, t ∈ map (fun g => VFloat (group_total k m g)) gs ->
                        before descending t (VFloat (group_total k m g)) = true)).
  { intros key measure total n descending q src out k m Hne Hn Hsrc Hk Hm Hty Htop.
    apply (group_top_n_collected _ _ _ _ _ _ _ _ Hsrc) in Htop.
    rewrite (ranked_frame _ _ _ _ _ _ _ _ Hne Hk Hm Hty) in Htop. injection Htop as <-.
    destruct (top_rows descending n (fun g => VFloat (group_total k m g))
                (group_order (values k)) Hn (NoDup_group_order _))
      as (Hts & Hlen & Hnodup & Hin & Hsorted & Hout).
    eexists. split; [rewrite Hts; reflexivity |].
    split; [rewrite Hlen, length_group_order; reflexivity |].
    split; [exact Hnodup |].
    split; [intros g Hg; apply elem_of_group_order, Hin, Hg |].
    split; [exact Hsorted |].
    intros g Hg. apply Hout, elem_of_group_order, Hg. }
  split; [| split].
  - intros key measure total n descending q src out k m Hne Hn Hsrc Hk Hm Hty Htop.
    destruct (Hranked _ _ _ _ _ _ _ _ _ _ Hne Hn Hsrc Hk Hm Hty Htop)
      as (gs & -> & Hlen & Hnodup & Hin & Hsorted & Hout).
    exists gs, (map (fun g => VFloat (group_total k m g)) gs).
    split; [reflexivity |]. split; [apply List.length_map |].
    split; [exact Hlen |]. split; [exact Hsorted |]. split; [exact Hnodup |].
    split; [| exact Hout].
    intros j g Hg. split.
    + apply elem_of_distinct, Hin. eapply list_elem_of_lookup_2. exact Hg.
    + rewrite map_lookup, Hg. reflexivity.
  - intros q src out k m Hsrc Hk Hm Hty Hgroups HA HB HC Htop.
    destruct (Hranked "Group" "Amount" "Total" 2 true q src out k m)
      as (gs & -> & Hlen & Hnodup & Hin & _ & Hout);
      [discriminate | lia | assumption.. |].
    rewrite (Permutation_length Hgroups) in Hlen. simpl in Hlen.
    destruct gs as [| g0 [| g1 [| g2 gs]]]; simpl in Hlen; try lia.
    exists g0, g1.
    assert (Hg0 : g0 = VStr "A" \/ g0 = VStr "B" \/ g0 = VStr "C").
    { specialize (Hin g0 ltac:(left)). rewrite Hgroups in Hin.
      rewrite !elem_of_cons, elem_of_nil in Hin. tauto. }
    assert (Hg1 : g1 = VStr "A" \/ g1 = VStr "B" \/ g1 = VStr "C").
    { specialize (Hin g1 ltac:(right; left)). rewrite Hgroups in Hin.
      rewrite !elem_of_cons, elem_of_nil in Hin. tauto. }
    assert (Hne : g0 <> g1).
    { apply NoDup_cons in Hnodup as [Hnotin _]. intros ->. apply Hnotin. left. }
    assert (Hleft : forall g x,
               g ∈ [ VStr "A"; VStr "B"; VStr "C" ] -> g <> g0 -> g <> g1 ->
               group_total k m g = 500%float ->
               (g0 = x \/ g1 = x) -> group_total k m x = 300%float -> False).
    { intros g x Hg Hg0' Hg1' Htotal Hx Hlow.
      assert (Hbefore : before true (VFloat (group_total k m x))
                               (VFloat (group_total k m g)) = true).
      { apply Hout.
        - rewrite Hgroups. exact Hg.
        - rewrite !elem_of_cons, elem_of_nil. intros [-> | [-> | []]]; congruence.
        - destruct Hx as [<- | <-]; [left | right; left]. }
      rewrite Htotal, Hlow in Hbefore. vm_compute in Hbefore. discriminate. }
    assert (HinA : VStr "A" ∈ [ VStr "A"; VStr "B"; VStr "C" ]) by (left).
    assert (HinB : VStr "B" ∈ [ VStr "A"; VStr "B"; VStr "C" ]) by (right; left).
    assert (HinC : VStr "C" ∈ [ VStr "A"; VStr "B"; VStr "C" ]) by (right; right; left).
    destruct Hg0 as [-> | [-> | ->]], Hg1 as [-> | [-> | ->]];
      try congruence; cbn [map]; rewrite ?HA, ?HB, ?HC.
    + exfalso. apply (Hleft (VStr "C") (VStr "A")); auto; discriminate.
    + exfalso. apply (Hleft (VStr "B") (VStr "A")); auto; discriminate.
    + exfalso. apply (Hleft (VStr "C") (VStr "A")); auto; discriminate.
    + split; [reflexivity | left; split; reflexivity].
    + exfalso. apply (Hleft (VStr "B") (VStr "A")); auto; discriminate.
    + split; [reflexivity | right; split; reflexivity].
  - intros key measure total n descending file k m Hne _.
    apply group_top_n_scan. exact Hne.
Qed.

Lemma group_top_n_ranked_witness :
  exists g0 g1 : value,
    @group_top_n reference_executor "Group" "Amount" "Total" 2 true (scan_parquet group_sample)
    = Ok [ mkSeries "Group" Utf8 [ g0; g1 ];
           mkSeries "Total" Float64 [ VFloat 500; VFloat 500 ] ]
    /\ (g0 = VStr "B" /\ g1 = VStr "C" \/ g0 = VStr "C" /\ g1 = VStr "B").
Proof.
  destruct (group_top_n_ranked reference_executor) as (_ & Hscenario & Hreturns).
  destruct (Hreturns "Group" "Amount" "Total" 2 true group_sample
              (mkSeries "Group" Utf8 [ VStr "A"; VStr "B"; VStr "A"; VStr "C"; VStr "C" ])
              (mkSeries "Amount" Float64
                 [ VFloat 100; VFloat 500; VFloat 200; VFloat 250; VFloat 250 ]))
    as [out Hout]; [discriminate | lia | reflexivity.. |].
  destruct (Hscenario (scan_parquet group_sample) group_sample out
              (mkSeries "Group" Utf8 [ VStr "A"; VStr "B"; VStr "A"; VStr "C"; VStr "C" ])
              (mkSeries "Amount" Float64
                 [ VFloat 100; VFloat 500; VFloat 200; VFloat 250; VFloat 250 ]))
    as (g0 & g1 & Heq & Hgroups);
    [reflexivity | reflexivity | reflexivity | reflexivity | reflexivity
     | vm_compute; reflexivity | vm_compute; reflexivity | vm_compute; reflexivity
     | exact Hout |].
  exists g0, g1. rewrite Hout, Heq. split; [reflexivity | exact Hgroups].
Defined.
(** ** The ratio of the city ranking *)

Section CityFacts.
Context `{Executor}.





End CityFacts.


(** ** Absent columns *)

Lemma unresolved_plan (lf : LazyFrame) (c : string) :
  plan lf (clear_rows (source lf)) = Err (ColumnNotFoundError c) -> unresolved lf c.
Proof.
  intros Hplan. unfold unresolved, collect_schema, collect. rewrite Hplan.
  repeat split; reflexivity.
Qed.

(** A query that cannot be resolved stays so, whatever step is added. *)
Lemma unresolved_then_do (f : DataFrame -> Result DataFrame) (lf : LazyFrame) (c : string) :
  unresolved lf c -> unresolved (then_do f lf) c.
Proof.
  intros (Hplan & _ & _). apply unresolved_plan.
  unfold then_do. cbn [plan source]. rewrite Hplan. reflexivity.
Qed.

Section AbsentColumns.
Context `{Engine} `{Executor}.

(** The cleaning query of a scanned file, as [df_cleaned] builds it. *)
Lemma df_cleaned_scan (file : DataFrame) (to_drop : list string) :
  df_cleaned (scan_parquet file) to_drop
  = Ok (scan_parquet file
        |> lazy_drop (present (columns file) to_drop)
        |> with_columns cast_numeric_columns
        |> with_columns (cast_string_columns (columns file))
        |> with_columns parse_date
        |> with_columns temporal_features).
Proof. unfold df_cleaned. rewrite collect_schema_scan. reflexivity. Qed.

(** The plan of the cleaning query, step by step. *)
Lemma cleaning_plan_steps (file : DataFrame) (to_drop : list string) (q : LazyFrame)
    (x out : DataFrame) :
  df_cleaned (scan_parquet file) to_drop = Ok q ->
  plan q x = Ok out ->
  exists f1 f2 f3 f4,
    drop_frame (present (columns file) to_drop) x = Ok f1
    /\ with_columns_frame cast_numeric_columns f1 = Ok f2
    /\ with_columns_frame (cast_string_columns (columns file)) f2 = Ok f3
    /\ with_columns_frame parse_date f3 = Ok f4
    /\ with_columns_frame temporal_features f4 = Ok out.
Proof.
  rewrite df_cleaned_scan. intros [= <-].
  unfold with_columns, lazy_drop, then_do, scan_parquet. cbn [plan]. intros Hplan.
  apply bind_Ok in Hplan as (f4 & Hplan & Htemporal).
  apply bind_Ok in Hplan as (f3 & Hplan & Hdate).
  apply bind_Ok in Hplan as (f2 & Hplan & Hstring).
  apply bind_Ok in Hplan as (f1 & Hplan & Hnumeric).
  rewrite bind_of_Ok in Hplan.
  exists f1, f2, f3, f4. repeat split; assumption.
Qed.

(** When a numeric column or "Date" is absent from the file, the plan of
    the cleaning query fails on the schema. *)
Lemma required_column_absent (file : DataFrame) (to_drop : list string) (q : LazyFrame)
    (c : string) :
  df_cleaned (scan_parquet file) to_drop = Ok q ->
  c ∈ REQUIRED_COLUMNS -> c ∉ columns file ->
  exists c', plan q (clear_rows file) = Err (ColumnNotFoundError c').
Proof.
  rewrite df_cleaned_scan. intros [= <-] Hreq Habsent.
  unfold with_columns, lazy_drop, then_do, scan_parquet. cbn [plan source].
  rewrite bind_of_Ok, <- (columns_clear_rows file), drop_frame_present, bind_of_Ok.
  set (D0 := List.filter _ (clear_rows file)).
  assert (Hrows0 : no_rows D0) by apply no_rows_filter, no_rows_clear_rows.
  assert (Hc0 : mem c (columns D0) = false).
  { apply mem_false. intros Hc. apply Habsent. unfold D0 in Hc.
    rewrite (columns_filter (fun x => negb (mem x to_drop))) in Hc.
    apply elem_of_filter in Hc as [Hc _]. rewrite columns_clear_rows in Hc. exact Hc. }
  destruct (casts_step_no_rows fst snd NUMERIC_COLUMNS D0 Hrows0)
    as [(a & _ & _ & Herr) | (D1 & Hok & Hcols1 & Hrows1 & Hall)].
  { exists a.1. unfold cast_numeric_columns. rewrite Herr. reflexivity. }
  unfold cast_numeric_columns. rewrite Hok, bind_of_Ok.
  destruct (casts_step_no_rows (fun x : string => x) (fun _ => Utf8)
              (present (columns (clear_rows file)) STRING_COLUMNS) D1 Hrows1)
    as [(a & _ & _ & Herr) | (D2 & Hok2 & Hcols2 & _ & _)].
  { exists a. unfold cast_string_columns. rewrite Herr. reflexivity. }
  unfold cast_string_columns. rewrite Hok2, bind_of_Ok.
  unfold REQUIRED_COLUMNS in Hreq. apply elem_of_app in Hreq as [Hnum | Hdate].
  - apply list_elem_of_fmap in Hnum as (a & -> & Ha).
    rewrite (Hall a Ha) in Hc0. discriminate.
  - apply list_elem_of_singleton in Hdate as ->.
    exists "Date". unfold with_columns_frame, parse_date. cbn [mapR].
    unfold alias, str_strptime, str_strptime_with, col.
    rewrite <- Hcols1, <- Hcols2 in Hc0. apply column_None in Hc0. rewrite Hc0.
    reflexivity.
Qed.

(** The string casts are written for the columns the file has only: they
    touch no other name. *)
Lemma string_step_present (sch : list string) (f2 f3 : DataFrame) :
  with_columns_frame (cast_string_columns sch) f2 = Ok f3 ->
  forall c, c ∉ present sch STRING_COLUMNS -> column c f3 = column c f2.
Proof.
  intros Hw c Hc. apply with_columns_frame_column in Hw as (news & Hnews & Hcol).
  rewrite Hcol, find_has_name_None; [reflexivity |].
  intros r Hr Hname. apply Hc. rewrite <- Hname.
  unfold cast_string_columns in Hnews. eapply cast_columns_names; eassumption.
Qed.

(** A cast column has the type it was cast to. *)
Lemma numeric_step_dtype (f1 f2 : DataFrame) :
  with_columns_frame cast_numeric_columns f1 = Ok f2 ->
  forall c dt, (c, dt) ∈ NUMERIC_COLUMNS ->
    exists r, column c f2 = Some r /\ dtype r = dt.
Proof.
  intros Hw. apply with_columns_frame_column in Hw as (news & Hnews & Hcol).
  unfold cast_numeric_columns, NUMERIC_COLUMNS in Hnews. cbn [map fst snd] in Hnews.
  apply mapR_cons_Ok in Hnews as (r & ? & E & Hnews & ->).
  apply mapR_cons_Ok in Hnews as (r0 & ? & E0 & Hnews & ->).
  apply mapR_cons_Ok in Hnews as (r1 & ? & E1 & Hnews & ->).
  apply mapR_cons_Ok in Hnews as (r2 & ? & E2 & Hnews & ->).
  apply mapR_nil_Ok in Hnews as ->.
  apply cast_col_Ok in E as (s1 & _ & Hr1 & _).
  apply cast_col_Ok in E0 as (s2 & _ & Hr2 & _).
  apply cast_col_Ok in E1 as (s3 & _ & Hr3 & _).
  apply cast_col_Ok in E2 as (s4 & _ & Hr4 & _).
  intros c dt Hin. unfold NUMERIC_COLUMNS in Hin.
  rewrite !elem_of_cons, elem_of_nil in Hin.
  rewrite Hcol. cbn [rev app List.find]. unfold has_name.
  rewrite Hr1, Hr2, Hr3, Hr4. cbn [name].
  destruct Hin as [Heq | [Heq | [Heq | [Heq | []]]]]; injection Heq as -> ->;
    eqb_names; eexists; (split; [reflexivity |]); reflexivity.
Qed.

(** A name that is no column of the file, and not a name the cleaning
    pipeline makes, is no column of the cleaned schema. *)
Lemma cleaned_column_absent (file : DataFrame) (to_drop : list string) (q : LazyFrame)
    (out : DataFrame) (c : string) :
  df_cleaned (scan_parquet file) to_drop = Ok q ->
  plan q (clear_rows file) = Ok out ->
  c ∉ columns file -> c ∉ TEMPORAL_COLUMNS ->
  column c out = None.
Proof.
  intros Hq Hplan Habsent Hnot_temporal.
  assert (Hnot_required : c ∉ REQUIRED_COLUMNS).
  { intros Hreq. destruct (required_column_absent _ _ _ _ Hq Hreq Habsent) as [c' Herr].
    rewrite Herr in Hplan. discriminate. }
  destruct (cleaning_plan_steps _ _ _ _ _ Hq Hplan)
    as (f1 & f2 & f3 & f4 & Hdrop & Hnumeric & Hstring & Hdate & Htemporal).
  rewrite (temporal_step _ _ Htemporal c Hnot_temporal).
  rewrite (proj2 (date_step _ _ Hdate) c).
  2:{ intros ->. apply Hnot_required, elem_of_app. right. left. }
  rewrite (string_step_present _ _ _ Hstring c).
  2:{ intros Hc. apply elem_of_present in Hc as [_ Hc]. exact (Habsent Hc). }
  rewrite (proj2 (numeric_step _ _ Hnumeric) c).
  2:{ intros Hc. apply Hnot_required, elem_of_app. left. exact Hc. }
  rewrite (drop_step _ _ _ Hdrop c).
  destruct (mem c (present (columns file) to_drop)); [reflexivity |].
  apply column_None. rewrite columns_clear_rows. apply mem_false. exact Habsent.
Qed.

(** The cleaned schema has "Sale (Dollars)" as a Float64 column. *)
Lemma cleaned_sale_column (file : DataFrame) (to_drop : list string) (q : LazyFrame)
    (x out : DataFrame) :
  df_cleaned (scan_parquet file) to_drop = Ok q ->
  plan q x = Ok out ->
  exists r, column "Sale (Dollars)" out = Some r /\ dtype r = Float64.
Proof.
  intros Hq Hplan.
  destruct (cleaning_plan_steps _ _ _ _ _ Hq Hplan)
    as (f1 & f2 & f3 & f4 & Hdrop & Hnumeric & Hstring & Hdate & Htemporal).
  destruct (numeric_step_dtype _ _ Hnumeric "Sale (Dollars)" Float64) as (r & Hr & Hty).
  { apply list_elem_of_In. right. left. reflexivity. }
  exists r. split; [| exact Hty].
  rewrite (temporal_step _ _ Htemporal) by (apply mem_false; reflexivity).
  rewrite (proj2 (date_step _ _ Hdate)) by discriminate.
  rewrite (string_step _ _ _ Hstring) by (apply mem_false; reflexivity).
  exact Hr.
Qed.

(** The plan of the classified query: the plan of the cleaning query, then
    the one new column. *)
Lemma classified_plan (q : LazyFrame) (x out : DataFrame) :
  plan (df_with_categories q) x = Ok out ->
  exists mid, plan q x = Ok mid
              /\ forall c, c <> "Major_Category" -> column c out = column c mid.
Proof.
  unfold df_with_categories, with_columns, then_do. cbn [plan]. intros Hplan.
  apply bind_Ok in Hplan as (mid & Hmid & Hstep).
  exists mid. split; [exact Hmid |].
  apply classification_frame in Hstep as (s & _ & _ & ->).
  intros c Hc. rewrite column_with_column. cbn [name].
  apply not_eq_sym, String.eqb_neq in Hc. rewrite Hc. reflexivity.
Qed.

(** A grouped query whose key is no column of the schema fails on the
    schema, whatever is aggregated and whatever follows. *)
Lemma group_by_key_absent (key : string) (aggs : list Expr) (df : DataFrame) :
  column key df = None -> group_by_frame key aggs df = Err (ColumnNotFoundError key).
Proof.
  intros Hkey. unfold group_by_frame, col. rewrite Hkey. reflexivity.
Qed.

(** The aggregates of the city ranking on a schema without the invoice
    numbers: the sum resolves, the count does not. *)
Lemma city_aggregates_unresolved (df : DataFrame) (r : Series) :
  column "Sale (Dollars)" df = Some r -> dtype r = Float64 ->
  column "Invoice/Item Number" df = None ->
  select [ alias "Total Sales" (sum (col "Sale (Dollars)"));
           alias "Num Transactions" (n_unique (col "Invoice/Item Number")) ]
         (clear_rows df)
  = Err (ColumnNotFoundError "Invoice/Item Number").
Proof.
  intros Hr Hty Hinv.
  assert (Hsum : exists t, alias "Total Sales" (sum (col "Sale (Dollars)")) (clear_rows df)
                           = Ok t).
  { unfold alias, sum, col. rewrite column_clear_rows, Hr.
    cbn [fmap option_fmap option_map]. rewrite !bind_of_Ok. cbn [dtype]. rewrite Hty.
    eexists. reflexivity. }
  destruct Hsum as [t Hsum].
  assert (Hcount : alias "Num Transactions" (n_unique (col "Invoice/Item Number"))
                     (clear_rows df)
                   = Err (ColumnNotFoundError "Invoice/Item Number")).
  { unfold alias, n_unique, col. rewrite column_clear_rows, Hinv. reflexivity. }
  unfold select. cbn [mapR]. rewrite Hsum, bind_of_Ok, Hcount. reflexivity.
Qed.

End AbsentColumns.

(** C4, amended.  Assembling the cleaning query on a scanned file never
    fails, whatever columns the file has: the query is only a plan.  An
    absent column is reported by the first query that reads it, when that
    query is resolved on the schema, before any row is read: its schema
    cannot be read and it cannot be collected.  For a numeric column or
    "Date" that query is the cleaning query itself.  An absent text column
    is skipped by the cleaning query, which may collect: "Category Name"
    is then reported by the classified query, and where the classified
    query resolves, a grouping key that is absent ("City" in the two city
    rankings) or the absent "Invoice/Item Number" is reported by the
    ranked cell that reads it. *)
Theorem absent_column_is_reported_at_collect (E : Engine) (X : Executor) (file : DataFrame)
    (to_drop : list string) :
  exists q : LazyFrame,
    df_cleaned (scan_parquet file) to_drop = Ok q
    /\ (forall c, c ∈ REQUIRED_COLUMNS -> c ∉ columns file ->
          exists c', plan q (clear_rows file) = Err (ColumnNotFoundError c')
                     /\ collect_schema q = Err (ColumnNotFoundError c')
                     /\ collect q = Err (ColumnNotFoundError c'))
    /\ (forall sch, collect_schema q = Ok sch ->
          "Category Name" ∉ columns file ->
          unresolved (df_with_categories q) "Category Name")
    /\ (forall sch, collect_schema (df_with_categories q) = Ok sch ->
          (forall key measure total n descending,
              key ∉ columns file -> key ∉ TEMPORAL_COLUMNS -> key <> "Major_Category" ->
              unresolved (group_top_n_query key measure total n descending
                            (df_with_categories q)) key
              /\ group_top_n key measure total n descending (df_with_categories q)
                 = Err (ColumnNotFoundError key))
          /\ ("City" ∉ columns file ->
              unresolved (city_efficiency_query (df_with_categories q)) "City"
              /\ city_efficiency (df_with_categories q) = Err (ColumnNotFoundError "City")
              /\ top_cities (df_with_categories q) = Err (ColumnNotFoundError "City"))
          /\ ("City" ∈ sch -> "Invoice/Item Number" ∉ columns file ->
              unresolved (city_efficiency_query (df_with_categories q))
                         "Invoice/Item Number"
              /\ city_efficiency (df_with_categories q)
                 = Err (ColumnNotFoundError "Invoice/Item Number"))).
Proof.
  destruct (df_cleaned (scan_parquet file) to_drop) as [q | e] eqn:Hq;
    [| rewrite df_cleaned_scan in Hq; discriminate].
  exists q. split; [reflexivity |].
  assert (Hsource : source q = file).
  { rewrite df_cleaned_scan in Hq. injection Hq as <-. reflexivity. }
  split; [| split].
  - intros c Hreq Habsent.
    destruct (required_column_absent _ _ _ _ Hq Hreq Habsent) as [c' Hplan].
    exists c'. split; [exact Hplan |].
    unfold collect_schema, collect. rewrite Hsource, Hplan. split; reflexivity.
  - intros sch Hsch Habsent. apply unresolved_plan.
    unfold collect_schema in Hsch. rewrite Hsource in Hsch.
    apply fmap_Ok in Hsch as (mid & Hmid & _).
    pose proof (cleaned_column_absent _ _ _ _ "Category Name" Hq Hmid Habsent) as Hcol.
    unfold df_with_categories, with_columns, then_do. cbn [plan source].
    rewrite Hsource, Hmid, bind_of_Ok.
    unfold with_columns_frame. cbn [mapR]. rewrite major_category_eval, Hcol.
    + reflexivity.
    + apply mem_false. reflexivity.
  - intros sch Hsch.
    assert (Hsource' : source (df_with_categories q) = file) by exact Hsource.
    unfold collect_schema in Hsch. rewrite Hsource' in Hsch.
    apply fmap_Ok in Hsch as (cls & Hcls & ->).
    destruct (classified_plan _ _ _ Hcls) as (mid & Hmid & Hsame).
    assert (Habsent : forall c, c ∉ columns file -> c ∉ TEMPORAL_COLUMNS ->
                                c <> "Major_Category" -> column c cls = None).
    { intros c Hfile Htemporal Hmajor. rewrite (Hsame c Hmajor).
      exact (cleaned_column_absent _ _ _ _ c Hq Hmid Hfile Htemporal). }
    assert (Hkey : forall key aggs,
               column key cls = None ->
               unresolved (group_by key aggs (df_with_categories q)) key).
    { intros key aggs Hcol. apply unresolved_plan.
      unfold group_by, then_do. cbn [plan source].
      rewrite Hsource', Hcls, bind_of_Ok. apply group_by_key_absent, Hcol. }
    split; [| split].
    + intros key measure total n descending Hfile Htemporal Hmajor.
      assert (Hun : unresolved (group_top_n_query key measure total n descending
                                  (df_with_categories q)) key).
      { unfold group_top_n_query, lazy_head, sort.
        apply unresolved_then_do, unresolved_then_do, Hkey, Habsent; assumption. }
      split; [exact Hun |]. destruct Hun as (_ & _ & Hcollect). exact Hcollect.
    + intros Hfile.
      assert (Hun : unresolved (city_efficiency_query (df_with_categories q)) "City").
      { unfold city_efficiency_query, lazy_head, sort, with_columns.
        apply unresolved_then_do, unresolved_then_do, unresolved_then_do, Hkey, Habsent;
          [exact Hfile | apply mem_false; reflexivity | discriminate]. }
      split; [exact Hun |]. split; [destruct Hun as (_ & _ & Hcollect); exact Hcollect |].
      unfold top_cities, group_top_n, group_top_n_query, lazy_head, sort.
      apply unresolved_then_do, unresolved_then_do, Hkey, Habsent;
        [exact Hfile | apply mem_false; reflexivity | discriminate].
    + intros Hcity Hfile.
      assert (Hun : unresolved (city_efficiency_query (df_with_categories q))
                               "Invoice/Item Number").
      { unfold city_efficiency_query, lazy_head, sort, with_columns.
        apply unresolved_then_do, unresolved_then_do, unresolved_then_do, unresolved_plan.
        unfold group_by, then_do. cbn [plan source].
        rewrite Hsource', Hcls, bind_of_Ok.
        destruct (column "City" cls) as [k |] eqn:Hk.
        2:{ apply column_None, mem_false in Hk. contradiction. }
        destruct (cleaned_sale_column _ _ _ _ _ Hq Hmid) as (r & Hr & Hty).
        rewrite <- (Hsame "Sale (Dollars)") in Hr by discriminate.
        unfold group_by_frame. rewrite (proj2 (col_Ok _ _ _) Hk), bind_of_Ok.
        rewrite (city_aggregates_unresolved cls r Hr Hty); [reflexivity |].
        apply Habsent; [exact Hfile | apply mem_false; reflexivity | discriminate]. }
      split; [exact Hun |]. destruct Hun as (_ & _ & Hcollect). exact Hcollect.
Qed.

Lemma absent_column_is_reported_at_collect_witness :
  exists (q : LazyFrame) (cl : DataFrame),
    df_cleaned (scan_parquet one_sale_no_city) ADDITIONAL_DROPS = Ok q
    /\ collect q = Ok cl
    /\ @city_efficiency reference_executor (df_with_categories q)
       = Err (ColumnNotFoundError "City").
Proof.
  destruct (absent_column_is_reported_at_collect reference_engine reference_executor
              one_sale_no_city ADDITIONAL_DROPS) as (q & Hq & _ & _ & Hlater).
  pose proof Hq as Hq'. rewrite df_cleaned_scan in Hq'. injection Hq' as Hq'.
  assert (Hsch : exists sch, collect_schema (df_with_categories q) = Ok sch).
  { rewrite <- Hq'. eexists. vm_compute. reflexivity. }
  destruct Hsch as [sch Hsch].
  destruct (Hlater sch Hsch) as (_ & Hcity & _).
  destruct Hcity as (_ & Hcollect & _); [apply mem_false; reflexivity |].
  assert (Hcl : exists cl, collect q = Ok cl).
  { rewrite <- Hq'. eexists. vm_compute. reflexivity. }
  destruct Hcl as [cl Hcl].
  exists q, cl. repeat split; assumption.
Defined.

Lemma drop_plan_idempotent_witness :
  exists q1 : LazyFrame,
    apply_drop_plan ADDITIONAL_DROPS (scan_parquet category_sample) = Ok q1
    /\ collect q1 = Ok category_sample.
Proof.
  destruct (drop_plan_idempotent category_sample ADDITIONAL_DROPS)
    as (q1 & q2 & Hq1 & _ & _ & _ & _ & _ & Hnoop).
  exists q1. split; [exact Hq1 |]. apply Hnoop.
  intros c Hc. apply mem_false. apply mem_true in Hc.
  unfold ADDITIONAL_DROPS in Hc. simpl in Hc.
  repeat (let H := fresh in
          apply orb_true_iff in Hc as [H | Hc];
          [apply String.eqb_eq in H as ->; reflexivity |]).
  discriminate.
Defined.
